(** * rushb: a shallow embedding of the test suite of [rushb.go]

    The Go code is a small wrapper around [*testing.T]: a [Suite] keeps an
    indentation and three counters, prints a trace, and classifies the
    failures of the test bodies it runs.  Its control flow rests on [panic],
    [recover], [defer] and on [runtime.Goexit] (through [T.Fatal]), so the
    embedding is a state monad over the observable world whose results
    distinguish a normal return, a panic in flight and a goroutine exit in
    progress. *)

From Stdlib Require Import ZArith List String Ascii Bool Lia DecimalString.
Import ListNotations.

Local Open Scope Z_scope.
Local Open Scope string_scope.

(** ** Go's [int] *)

Module GoInt.

(** [int] on the 64-bit platforms: two's complement, silent wrap-around. *)
Definition int_min : Z := - 2 ^ 63.
Definition int_max : Z := 2 ^ 63 - 1.

Definition wrap (z : Z) : Z := (z - int_min) mod 2 ^ 64 + int_min.

Definition add (x y : Z) : Z := wrap (x + y).
Definition sub (x y : Z) : Z := wrap (x - y).

Definition is_int (z : Z) : Prop := int_min <= z <= int_max.

End GoInt.

(** ** Go values held in an [interface{}] *)

(** [suiteError] of the source: the payload of [Fail] and [Fatal]. *)
Record suiteError : Type := mkSuiteError { critical : bool; msg : string }.

(** An [error] as [errors.New] and [fmt.Errorf] make them: a pointer to the
    text, so that two errors are [==] when they are the same pointer. *)
Record error : Type := mkError { addr : positive; text : string }.

(** The dynamic values the model lets flow through [interface{}]: the
    comparable primitives, a slice (a type [==] cannot compare), errors,
    the errors of the Go runtime and the suite's own signal. *)
Inductive value : Type :=
| VBool (b : bool)
| VInt (n : Z)
| VString (s : string)
| VInts (l : list Z)
| VError (e : error)
| VRuntimeError (s : string)
| VSuiteError (e : suiteError).

(** An interface value: [None] is the [nil] interface. *)
Definition iface : Type := option value.

Definition nl : string := String (ascii_of_nat 10) EmptyString.
Definition dquote : string := String (ascii_of_nat 34) EmptyString.

Module Fmt.

Definition of_int (n : Z) : string := NilZero.string_of_int (Z.to_int n).

Definition of_bool (b : bool) : string := if b then "true" else "false".

Fixpoint join (sep : string) (l : list string) : string :=
  match l with
  | [] => ""
  | [x] => x
  | x :: rest => x ++ sep ++ join sep rest
  end.

(** The verb [%v]. *)
Definition v (x : iface) : string :=
  match x with
  | None => "<nil>"
  | Some (VBool b) => of_bool b
  | Some (VInt n) => of_int n
  | Some (VString s) => s
  | Some (VInts l) => "[" ++ join " " (map of_int l) ++ "]"
  | Some (VError e) => text e
  | Some (VRuntimeError s) => s
  | Some (VSuiteError e) => "{" ++ of_bool (critical e) ++ " " ++ msg e ++ "}"
  end.

End Fmt.

(** [==] on two interface values: equal dynamic types and equal values.
    [None] is the run-time panic Go raises when both operands hold the same
    type and that type is not comparable. *)
Definition value_eq (a b : value) : option bool :=
  match a, b with
  | VBool x, VBool y => Some (Bool.eqb x y)
  | VInt x, VInt y => Some (Z.eqb x y)
  | VString x, VString y => Some (String.eqb x y)
  | VInts _, VInts _ => None
  | VError x, VError y => Some (Pos.eqb (addr x) (addr y))
  | VRuntimeError x, VRuntimeError y => Some (String.eqb x y)
  | VSuiteError x, VSuiteError y =>
      Some (Bool.eqb (critical x) (critical y) && String.eqb (msg x) (msg y))
  | _, _ => Some false
  end.

Definition iface_eq (a b : iface) : option bool :=
  match a, b with
  | None, None => Some true
  | Some x, Some y => value_eq x y
  | _, _ => Some false
  end.

(** The values [==] compares by their content (a slice is not comparable
    and an [error] is compared by address). *)
Definition by_value (x : iface) : bool :=
  match x with
  | Some (VInts _) | Some (VError _) => false
  | _ => true
  end.

(** ** The package [github.com/fatih/color]

    The colour functions are not part of the repository; the suite only
    wraps strings with them. *)
Class Color : Type := {
  HiGreenString : string -> string;
  HiRedString : string -> string;
  HiBlueString : string -> string;
  HiBlackString : string -> string;
  (** [color.New(color.Bold).Sprintf] *)
  Bold_Sprintf : string -> string
}.

(** ** The world a run acts on *)

(** What [*testing.T] was asked to record: [T.Error] and [T.Fatal]. *)
Inductive tevent : Type :=
| TError (arg : value)
| TFatal (arg : value).

(** The [Suite] struct.  The field [T] points to the host's [testing.T]; the
    model keeps there what the host has recorded so far. *)
Record Suite : Type := mkSuite {
  T : list tevent;
  indent : Z;
  passed : Z;
  failed : Z;
  skiped : Z
}.

Definition NewSuite : Suite :=
  {| T := []; indent := 0; passed := 0; failed := 0; skiped := 0 |}.

Definition set_T (f : list tevent -> list tevent) (s : Suite) : Suite :=
  {| T := f (T s); indent := indent s; passed := passed s;
     failed := failed s; skiped := skiped s |}.
Definition set_indent (f : Z -> Z) (s : Suite) : Suite :=
  {| T := T s; indent := f (indent s); passed := passed s;
     failed := failed s; skiped := skiped s |}.
Definition set_passed (f : Z -> Z) (s : Suite) : Suite :=
  {| T := T s; indent := indent s; passed := f (passed s);
     failed := failed s; skiped := skiped s |}.
Definition set_failed (f : Z -> Z) (s : Suite) : Suite :=
  {| T := T s; indent := indent s; passed := passed s;
     failed := f (failed s); skiped := skiped s |}.
Definition set_skiped (f : Z -> Z) (s : Suite) : Suite :=
  {| T := T s; indent := indent s; passed := passed s;
     failed := failed s; skiped := f (skiped s) |}.

(** How a Go call ends: it returns, it panics with a (non-nil) value, or the
    goroutine is exiting ([runtime.Goexit], which [T.Fatal] calls).  From
    Go 1.21 on [panic(nil)] panics with a [*runtime.PanicNilError], so the
    value of a panic in flight is never [nil].  A deferred call that runs
    during the exit may panic: the panic unwinds like any other, with the
    exit still pending, and the exit resumes once the panic is recovered
    ([PanickingInGoexit]). *)
Inductive result (A : Type) : Type :=
| Done (a : A)
| Panicking (v : value)
| Goexit
| PanickingInGoexit (v : value).
Arguments Done {A} a.
Arguments Panicking {A} v.
Arguments Goexit {A}.
Arguments PanickingInGoexit {A} v.

(** Is a goroutine exit pending behind this outcome? *)
Definition pending {A} (r : result A) : bool :=
  match r with
  | Goexit | PanickingInGoexit _ => true
  | Done _ | Panicking _ => false
  end.

(** A panic with [v], raised with or without an exit pending. *)
Definition raise_in {A} (exiting : bool) (v : value) : result A :=
  if exiting then PanickingInGoexit v else Panicking v.

Section Monad.

(** The state of the caller's own code (whatever the test bodies touch). *)
Context {C : Type}.

Record World : Type := mkWorld {
  suite : Suite;
  stdout : list string;
  client : C
}.

Definition on_suite (f : Suite -> Suite) (w : World) : World :=
  {| suite := f (suite w); stdout := stdout w; client := client w |}.
Definition on_stdout (f : list string -> list string) (w : World) : World :=
  {| suite := suite w; stdout := f (stdout w); client := client w |}.
Definition on_client (f : C -> C) (w : World) : World :=
  {| suite := suite w; stdout := stdout w; client := f (client w) |}.

Definition M (A : Type) : Type := World -> result A * World.

Definition ret {A} (a : A) : M A := fun w => (Done a, w).

Definition bind {A B} (m : M A) (k : A -> M B) : M B :=
  fun w =>
    match m w with
    | (Done a, w1) => k a w1
    | (Panicking v, w1) => (Panicking v, w1)
    | (Goexit, w1) => (Goexit, w1)
    | (PanickingInGoexit v, w1) => (PanickingInGoexit v, w1)
    end.

Definition panic {A} (v : value) : M A := fun w => (Panicking v, w).
Definition runtime_Goexit {A} : M A := fun w => (Goexit, w).
Definition gets {A} (f : World -> A) : M A := fun w => (Done (f w), w).
Definition modify (f : World -> World) : M unit := fun w => (Done tt, f w).

(** A deferred call made while the goroutine is exiting: when it returns
    the exit goes on, when it panics the panic unwinds with the exit
    pending. *)
Definition during_exit {A B} (p : result A * World) : result B * World :=
  match p with
  | (Done _, w) => (Goexit, w)
  | (Panicking v, w) => (PanickingInGoexit v, w)
  | (Goexit, w) => (Goexit, w)
  | (PanickingInGoexit v, w) => (PanickingInGoexit v, w)
  end.

(** [defer cleanup; body] where [cleanup] does not call [recover]: the
    deferred call runs however [body] ended, and the return, panic or
    exit in progress goes on afterwards.  A deferred call that itself
    panics replaces the panic in flight, and leaves pending the exit that
    was; one that exits aborts the panic in flight. *)
Definition defer {A} (cleanup : M unit) (body : M A) : M A :=
  fun w =>
    let (r, w1) := body w in
    match cleanup w1 with
    | (Done _, w2) => (r, w2)
    | (Panicking v, w2) => (raise_in (pending r) v, w2)
    | (Goexit, w2) => (Goexit, w2)
    | (PanickingInGoexit v, w2) => (PanickingInGoexit v, w2)
    end.

(** [defer func() { if err := recover(); err != nil {..} else {..} }()]:
    the deferred function starts by calling [recover].  [handler] gets
    what [recover] returned ([None] is [nil]: no panic in flight, and
    also during a [Goexit]) and the current value of the function's
    result, and gives the result the function returns with.  After a
    recovered panic the function returns normally, unless an exit is
    pending: a [Goexit] goes on after the deferred call, also when the
    deferred call has recovered a panic raised during the exit. *)
Definition defer_recover {A} (handler : iface -> A -> M A) (zero : A)
    (body : M A) : M A :=
  fun w =>
    match body w with
    | (Done a, w1) => handler None a w1
    | (Panicking v, w1) => handler (Some v) zero w1
    | (Goexit, w1) => during_exit (handler None zero w1)
    | (PanickingInGoexit v, w1) => during_exit (handler (Some v) zero w1)
    end.

End Monad.

Arguments World : clear implicits.
Arguments M : clear implicits.

Declare Scope go_scope.
Delimit Scope go_scope with go.
Notation "x <- m ;; k" := (bind m (fun x => k))
  (at level 61, m at next level, right associativity) : go_scope.
Notation "m ;; k" := (bind m (fun _ => k))
  (at level 61, right associativity) : go_scope.
Local Open Scope go_scope.

(** ** The suite *)

Section Suite.

Context {C : Type} {color : Color}.

(** The caller's bodies: [func()] and [SuiteTestHandler]; a handler returns
    an [error], [None] being [nil].  Both get at the one suite of the
    world through the pointer [s]. *)
Definition Body : Type := M C unit.
Definition SuiteTestHandler : Type := M C (option error).

Definition get_s : M C Suite := gets suite.
Definition update_s (f : Suite -> Suite) : M C unit := modify (on_suite f).

(** *** Library calls *)

Fixpoint repeat_string (s : string) (count : nat) : string :=
  match count with
  | O => ""
  | S n => s ++ repeat_string s n
  end.

(** [strings.Repeat] panics on a negative count. *)
Definition strings_Repeat (s : string) (count : Z) : M C string :=
  if Z.ltb count 0 then panic (VString "strings: negative Repeat count")
  else ret (repeat_string s (Z.to_nat count)).

(** [fmt.Println] of one string: one more line on the standard output. *)
Definition fmt_Println (line : string) : M C unit :=
  modify (on_stdout (fun out => (out ++ [line])%list)).

(** [s.T.Error]: record a failure, carry on. *)
Definition T_Error (arg : value) : M C unit :=
  update_s (set_T (fun t => (t ++ [TError arg])%list)).

(** [s.T.Fatal]: record a failure, then [FailNow], that is [runtime.Goexit]:
    the call does not return, the deferred calls of the goroutine run. *)
Definition T_Fatal (arg : value) : M C unit :=
  update_s (set_T (fun t => (t ++ [TFatal arg])%list)) ;; runtime_Goexit.

(** *** Printing *)

Definition println (content : string) : M C unit :=
  s <- get_s ;;
  prefix <- strings_Repeat " " (indent s) ;;
  fmt_Println (prefix ++ content).

Definition title (content : string) : M C unit :=
  println (Bold_Sprintf content).

Definition ok (content : string) : M C unit :=
  println ("[" ++ HiGreenString "Done" ++ "] " ++ content).

Definition fail (content : string) : M C unit :=
  println ("[" ++ HiRedString "Fail" ++ "] " ++ content).

Definition skip (content : string) : M C unit :=
  println ("[" ++ HiBlueString "Skip" ++ "] " ++ HiBlackString content).

Definition info (content : string) : M C unit :=
  println (HiBlackString content).

(** *** Grouping *)

Definition Title (name : string) (test : Body) : M C unit :=
  defer
    (update_s (set_indent (fun i => GoInt.sub i 2)))
    (println "" ;;
     title name ;;
     println "" ;;
     update_s (set_indent (fun i => GoInt.add i 2)) ;;
     test).

(** The deferred function of [Start]. *)
Definition finished : M C unit :=
  println (nl ++ "=== FINISHED" ++ nl) ;;
  s <- get_s ;;
  println (HiGreenString "Passed" ++ ": " ++ Fmt.of_int (passed s)) ;;
  s <- get_s ;;
  println (HiRedString "Failed" ++ ": " ++ Fmt.of_int (failed s)) ;;
  s <- get_s ;;
  println (HiBlueString "Skiped" ++ ": " ++ Fmt.of_int (skiped s)) ;;
  s <- get_s ;;
  println (nl ++ "Total: "
           ++ Fmt.of_int (GoInt.add (GoInt.add (passed s) (failed s)) (skiped s))
           ++ nl).

Definition Start (name : string) (test : Body) : M C unit :=
  defer finished (Title name test).

(** *** Running one test *)

Definition Check (name : string) (test : SuiteTestHandler) : M C unit :=
  defer_recover
    (fun err _ =>
       match err with
       | Some err =>
           update_s (set_failed (fun n => GoInt.add n 1)) ;;
           fail name ;;
           match err with
           | VSuiteError e =>
               if critical e then T_Fatal (VString (msg e))
               else T_Error (VString (msg e))
           | _ => T_Error err
           end
       | None => ret tt
       end)
    tt
    (err <- test ;;
     match err with
     | Some err =>
         update_s (set_failed (fun n => GoInt.add n 1)) ;;
         fail name ;;
         T_Error (VError err)
     | None => ret tt
     end ;;
     update_s (set_passed (fun n => GoInt.add n 1)) ;;
     ok name).

Definition Critical (name : string) (test : SuiteTestHandler) : M C unit :=
  let fail' := fun err : value =>
    update_s (set_failed (fun n => GoInt.add n 1)) ;;
    fail name ;;
    T_Fatal err in
  defer_recover
    (fun err _ =>
       match err with
       | Some err => fail' err
       | None => ret tt
       end)
    tt
    (err <- test ;;
     match err with
     | Some err => fail' (VError err)
     | None => ret tt
     end ;;
     update_s (set_passed (fun n => GoInt.add n 1)) ;;
     ok name).

Definition Skip (name : string) (test : SuiteTestHandler) : M C unit :=
  update_s (set_skiped (fun n => GoInt.add n 1)) ;;
  skip name.

(** *** Probes and signals *)

(** [catch] is a function value: [None] is [nil].  The named result
    [result] is [false] until the deferred function assigns it. *)
Definition Try (try : Body) (catch : option (value -> M C unit)) : M C bool :=
  defer_recover
    (fun err result =>
       match err with
       | Some err =>
           match catch with
           | Some catch => catch err
           | None => ret tt
           end ;;
           ret false
       | None => ret true
       end)
    false
    (try ;;
     ret false).

Definition Assert (actual expect : iface) : M C unit :=
  match iface_eq actual expect with
  | Some true => ret tt
  | Some false =>
      panic (VString ("Expect " ++ dquote ++ Fmt.v expect ++ dquote
                      ++ ", got " ++ dquote ++ Fmt.v actual ++ dquote))
  | None =>
      panic (VRuntimeError "runtime error: comparing uncomparable type []int")
  end.

Definition Info (content : string) : M C unit := info content.

Definition Fail {A} (content : string) : M C A :=
  panic (VSuiteError {| critical := false; msg := content |}).

Definition Fatal {A} (content : string) : M C A :=
  panic (VSuiteError {| critical := true; msg := content |}).

(** *** What the caller's code can do

    The fields of [Suite] other than [T] are unexported: outside the
    package a body reaches them only through the exported methods.  [own]
    is a step of the caller's code on its own state. *)
Definition own {A} (f : C -> A * C) : M C A :=
  fun w => let (a, c) := f (client w) in (Done a, on_client (fun _ => c) w).

(** [caller n m]: [m] is caller code, built from its own steps, panics,
    direct uses of the host and of the standard output, [defer] and
    [recover], and calls of the exported methods, with at most [n] nested
    [Title]/[Start] groups. *)
Inductive caller : forall A : Type, nat -> M C A -> Prop :=
| caller_ret : forall A n (a : A), caller A n (ret a)
| caller_bind : forall A B n (m : M C A) (k : A -> M C B),
    caller A n m -> (forall a, caller B n (k a)) -> caller B n (bind m k)
| caller_own : forall A n (f : C -> A * C), caller A n (own f)
| caller_panic : forall A n v, caller A n (panic v)
| caller_Goexit : forall A n, caller A n runtime_Goexit
| caller_Println : forall n line, caller unit n (fmt_Println line)
| caller_T_Error : forall n arg, caller unit n (T_Error arg)
| caller_T_Fatal : forall n arg, caller unit n (T_Fatal arg)
| caller_defer : forall A n cleanup (body : M C A),
    caller unit n cleanup -> caller A n body -> caller A n (defer cleanup body)
| caller_defer_recover : forall A n handler (zero : A) body,
    (forall err a, caller A n (handler err a)) -> caller A n body ->
    caller A n (defer_recover handler zero body)
| caller_Start : forall n name test,
    caller unit n test -> caller unit (S n) (Start name test)
| caller_Title : forall n name test,
    caller unit n test -> caller unit (S n) (Title name test)
| caller_Check : forall n name test,
    caller (option error) n test -> caller unit n (Check name test)
| caller_Critical : forall n name test,
    caller (option error) n test -> caller unit n (Critical name test)
| caller_Skip : forall n name test, caller unit n (Skip name test)
| caller_Try : forall n try catch,
    caller unit n try ->
    (forall f, catch = Some f -> forall err, caller unit n (f err)) ->
    caller bool n (Try try catch)
| caller_Assert : forall n actual expect, caller unit n (Assert actual expect)
| caller_Info : forall n content, caller unit n (Info content)
| caller_Fail : forall A n content, caller A n (Fail content)
| caller_Fatal : forall A n content, caller A n (Fatal content)
| caller_deeper : forall A n (m : M C A), caller A n m -> caller A (S n) m.

(** *** Vocabulary of the statements *)

(** A line as [println] writes it under suite [s]. *)
Definition indented (s : Suite) (content : string) : string :=
  repeat_string " " (Z.to_nat (indent s)) ++ content.

(** The block the deferred function of [Start] writes under suite [s]. *)
Definition summary (s : Suite) : list string :=
  [ indented s (nl ++ "=== FINISHED" ++ nl);
    indented s (HiGreenString "Passed" ++ ": " ++ Fmt.of_int (passed s));
    indented s (HiRedString "Failed" ++ ": " ++ Fmt.of_int (failed s));
    indented s (HiBlueString "Skiped" ++ ": " ++ Fmt.of_int (skiped s));
    indented s (nl ++ "Total: "
                ++ Fmt.of_int (GoInt.add (GoInt.add (passed s) (failed s))
                                         (skiped s))
                ++ nl) ].

(** The world in which [Title] starts its body: heading written, one level
    deeper. *)
Definition Title_enter (name : string) (w : World C) : World C :=
  {| suite := set_indent (fun i => GoInt.add i 2) (suite w);
     stdout := (stdout w ++ [ indented (suite w) "";
                              indented (suite w) (Bold_Sprintf name);
                              indented (suite w) "" ])%list;
     client := client w |}.

(** The indentation is the same on both sides of a run of [m], from any
    world that leaves room for [n] more levels. *)
Definition balanced {A} (n : nat) (m : M C A) : Prop :=
  forall w,
    0 <= indent (suite w) ->
    indent (suite w) + 2 * Z.of_nat n <= GoInt.int_max ->
    indent (suite (snd (m w))) = indent (suite w).

(** A step that never writes the field [indent]. *)
Definition keeps_indent {A} (m : M C A) : Prop :=
  forall w, indent (suite (snd (m w))) = indent (suite w).

End Suite.

Arguments caller {C color A} n m.
Arguments Body : clear implicits.
Arguments SuiteTestHandler : clear implicits.

(** ** Callers' code, for statements about whole runs *)

Section Callers.

Context {C : Type} {color : Color}.

(** One call in a run of checks: a check or a skipped test. *)
Inductive call : Type :=
| CallCheck (name : string) (test : SuiteTestHandler C)
| CallSkip (name : string) (test : SuiteTestHandler C).

(** The calls one after the other, as a body writes them. *)
Fixpoint run_calls (l : list call) : M C unit :=
  match l with
  | [] => ret tt
  | CallCheck name test :: rest => Check name test ;; run_calls rest
  | CallSkip name test :: rest => Skip name test ;; run_calls rest
  end.

(** A test that returns [nil] and touches nothing but the caller's own
    state. *)
Definition quiet_pass (test : SuiteTestHandler C) : Prop :=
  forall w, exists c, test w = (Done None, on_client (fun _ => c) w).

Definition passes_quietly (c : call) : Prop :=
  match c with
  | CallCheck _ test => quiet_pass test
  | CallSkip _ _ => True
  end.

Definition is_check (c : call) : bool :=
  match c with CallCheck _ _ => true | CallSkip _ _ => false end.

Definition checks (l : list call) : Z :=
  Z.of_nat (List.length (filter is_check l)).
Definition skips (l : list call) : Z :=
  Z.of_nat (List.length (filter (fun c => negb (is_check c)) l)).

(** The line a call writes under suite [s] when it passes or is skipped. *)
Definition call_line (s : Suite) (c : call) : string :=
  match c with
  | CallCheck name _ => indented s ("[" ++ HiGreenString "Done" ++ "] " ++ name)
  | CallSkip name _ =>
      indented s ("[" ++ HiBlueString "Skip" ++ "] " ++ HiBlackString name)
  end.

(** Groups inside groups: [Title n1 (Title n2 (... body))]. *)
Fixpoint Titles (names : list string) (body : Body C) : Body C :=
  match names with
  | [] => body
  | name :: rest => Title name (Titles rest body)
  end.

(** The headings of nested groups, the outermost at [i] spaces. *)
Fixpoint headings (i : Z) (names : list string) : list string :=
  match names with
  | [] => []
  | name :: rest =>
      (repeat_string " " (Z.to_nat i) ++ "")
      :: (repeat_string " " (Z.to_nat i) ++ Bold_Sprintf name)
      :: (repeat_string " " (Z.to_nat i) ++ "")
      :: headings (i + 2) rest
  end.

(** Caller code that reaches the host only through the suite: as [caller],
    without calls of [T.Error] and [T.Fatal] of its own. *)
Inductive suite_code : forall A : Type, nat -> M C A -> Prop :=
| suite_ret : forall A n (a : A), suite_code A n (ret a)
| suite_bind : forall A B n (m : M C A) (k : A -> M C B),
    suite_code A n m -> (forall a, suite_code B n (k a)) ->
    suite_code B n (bind m k)
| suite_own : forall A n (f : C -> A * C), suite_code A n (own f)
| suite_panic : forall A n v, suite_code A n (panic v)
| suite_Goexit : forall A n, suite_code A n runtime_Goexit
| suite_Println : forall n line, suite_code unit n (fmt_Println line)
| suite_defer : forall A n cleanup (body : M C A),
    suite_code unit n cleanup -> suite_code A n body ->
    suite_code A n (defer cleanup body)
| suite_defer_recover : forall A n handler (zero : A) body,
    (forall err a, suite_code A n (handler err a)) -> suite_code A n body ->
    suite_code A n (defer_recover handler zero body)
| suite_Start : forall n name test,
    suite_code unit n test -> suite_code unit (S n) (Start name test)
| suite_Title : forall n name test,
    suite_code unit n test -> suite_code unit (S n) (Title name test)
| suite_Check : forall n name test,
    suite_code (option error) n test -> suite_code unit n (Check name test)
| suite_Critical : forall n name test,
    suite_code (option error) n test -> suite_code unit n (Critical name test)
| suite_Skip : forall n name test, suite_code unit n (Skip name test)
| suite_Try : forall n try catch,
    suite_code unit n try ->
    (forall f, catch = Some f -> forall err, suite_code unit n (f err)) ->
    suite_code bool n (Try try catch)
| suite_Assert : forall n actual expect,
    suite_code unit n (Assert actual expect)
| suite_Info : forall n content, suite_code unit n (Info content)
| suite_Fail : forall A n content, suite_code A n (Fail content)
| suite_Fatal : forall A n content, suite_code A n (Fatal content)
| suite_deeper : forall A n (m : M C A),
    suite_code A n m -> suite_code A (S n) m.

(** The world after the report of a failure to [T.Error] or [T.Fatal]. *)
Definition reported (w1 : World C) (name : string) (ev : tevent) : World C :=
  {| suite := {| T := (T (suite w1) ++ [ev])%list;
                 indent := indent (suite w1);
                 passed := passed (suite w1);
                 failed := GoInt.add (failed (suite w1)) 1;
                 skiped := skiped (suite w1) |};
     stdout := (stdout w1
                ++ [indented (suite w1)
                      ("[" ++ HiRedString "Fail" ++ "] " ++ name)])%list;
     client := client w1 |}.

(** The world after a test was counted as passed. *)
Definition counted_passed (w1 : World C) (name : string) : World C :=
  {| suite := {| T := T (suite w1);
                 indent := indent (suite w1);
                 passed := GoInt.add (passed (suite w1)) 1;
                 failed := failed (suite w1);
                 skiped := skiped (suite w1) |};
     stdout := (stdout w1
                ++ [indented (suite w1)
                      ("[" ++ HiGreenString "Done" ++ "] " ++ name)])%list;
     client := client w1 |}.

(** From [w] to [w'] the counter [failed] went up by the number of records
    the host received. *)
Definition tally (w w' : World C) : Prop :=
  exists rec,
    T (suite w') = (T (suite w) ++ rec)%list
    /\ (GoInt.is_int (failed (suite w)) ->
        failed (suite w')
        = GoInt.wrap (failed (suite w) + Z.of_nat (List.length rec))).

Definition tallied {A} (n : nat) (m : M C A) : Prop :=
  forall w,
    0 <= indent (suite w) ->
    indent (suite w) + 2 * Z.of_nat n <= GoInt.int_max ->
    tally w (snd (m w)).

(** A step that writes neither the host's record nor [failed]. *)
Definition keeps_record {A} (m : M C A) : Prop :=
  forall w,
    T (suite (snd (m w))) = T (suite w)
    /\ failed (suite (snd (m w))) = failed (suite w).

End Callers.

Arguments call : clear implicits.
Arguments suite_code {C color A} n m.

(** ** Concrete colours and worlds *)

Definition esc : string := String (ascii_of_nat 27) EmptyString.

(** A concrete colouring for the runs below: the escape sequences
    [fatih/color] puts around a text that holds no format verb, with the
    general reset [ESC[0m] at the end (the library's versions from 1.16 on
    end bold with [ESC[22m] instead).  Only the concrete runs use it; the
    properties hold for every [Color]. *)
Definition sgr (code s : string) : string :=
  esc ++ "[" ++ code ++ "m" ++ s ++ esc ++ "[0m".

#[global] Instance ansi : Color := {|
  HiGreenString := sgr "92";
  HiRedString := sgr "91";
  HiBlueString := sgr "94";
  HiBlackString := sgr "90";
  Bold_Sprintf := sgr "1"
|}.

(** A fresh suite, nothing printed; the caller's state is a counter that
    probes bump. *)
Definition fresh : World nat :=
  {| suite := NewSuite; stdout := []; client := 0%nat |}.

Definition probe : M nat unit := own (fun c => (tt, S c)).

Definition bad : error := {| addr := 1; text := "bad" |}.

(** A test that leaves a trace and passes. *)
Definition passing : SuiteTestHandler nat := probe ;; ret None.

(** A group with a passing check, a skipped one, a check that fails with
    [Fail], a nested group whose critical test fails, and checks that come
    after it. *)
Definition group : Body nat :=
  Check "a" passing ;;
  Skip "b" passing ;;
  Check "c" (probe ;; Fail "no") ;;
  Title "inner" (Critical "d" (probe ;; Fatal "boom") ;; Check "e" passing) ;;
  Check "f" passing.

(** A group whose body raises a signal outside any check. *)
Definition bare : Body nat := Check "a" passing ;; Fail "stray".



(** A test that would panic if it were run. *)
Definition broken : SuiteTestHandler nat := probe ;; panic (VString "broken").

(** Two passing checks around a skipped test. *)
Definition plan : list (call nat) :=
  [CallCheck "a" passing; CallSkip "b" broken; CallCheck "c" passing].

(** ** Properties *)

(** *** Arithmetic of [int] away from the bounds *)

Lemma GoInt_wrap_id (z : Z) : GoInt.is_int z -> GoInt.wrap z = z.
Proof.
  unfold GoInt.is_int, GoInt.wrap, GoInt.int_min, GoInt.int_max.
  intros H. rewrite Z.mod_small by lia. lia.
Qed.

Lemma GoInt_add_exact (x y : Z) : GoInt.is_int (x + y) -> GoInt.add x y = x + y.
Proof. apply GoInt_wrap_id. Qed.

Lemma GoInt_sub_exact (x y : Z) : GoInt.is_int (x - y) -> GoInt.sub x y = x - y.
Proof. apply GoInt_wrap_id. Qed.

Lemma GoInt_enter_leave (i : Z) :
  GoInt.is_int i -> GoInt.sub (GoInt.add i 2) 2 = i.
Proof.
  unfold GoInt.is_int, GoInt.sub, GoInt.add, GoInt.wrap, GoInt.int_min,
    GoInt.int_max.
  intros H.
  replace ((i + 2 - - 2 ^ 63) mod 2 ^ 64 + - 2 ^ 63 - 2 - - 2 ^ 63)
    with ((i + 2 - - 2 ^ 63) mod 2 ^ 64 - 2) by lia.
  rewrite Zminus_mod_idemp_l.
  replace (i + 2 - - 2 ^ 63 - 2) with (i + 2 ^ 63) by lia.
  rewrite Z.mod_small by lia. lia.
Qed.

(** *** [==] on values compared by content *)

Lemma value_eq_by_value (a b : value) :
  by_value (Some a) = true -> by_value (Some b) = true ->
  exists c, value_eq a b = Some c /\ (c = true <-> a = b).
Proof.
  destruct a as [x|x|x|x|x|x|[xc xm]], b as [y|y|y|y|y|y|[yc ym]];
    simpl; intros Ha Hb; try discriminate;
    try (exists false; split; [reflexivity|split; discriminate]).
  - exists (Bool.eqb x y). split; [reflexivity|].
    rewrite Bool.eqb_true_iff. split; [intros ->; reflexivity|congruence].
  - exists (Z.eqb x y). split; [reflexivity|].
    rewrite Z.eqb_eq. split; [intros ->; reflexivity|congruence].
  - exists (String.eqb x y). split; [reflexivity|].
    rewrite String.eqb_eq. split; [intros ->; reflexivity|congruence].
  - exists (String.eqb x y). split; [reflexivity|].
    rewrite String.eqb_eq. split; [intros ->; reflexivity|congruence].
  - exists (Bool.eqb xc yc && String.eqb xm ym)%bool. split; [reflexivity|].
    rewrite Bool.andb_true_iff, Bool.eqb_true_iff, String.eqb_eq.
    split; [intros [-> ->]; reflexivity|intros E; inversion E; auto].
Qed.

Lemma iface_eq_by_value (a b : iface) :
  by_value a = true -> by_value b = true ->
  exists c, iface_eq a b = Some c /\ (c = true <-> a = b).
Proof.
  destruct a as [a|], b as [b|]; intros Ha Hb.
  - destruct (value_eq_by_value a b Ha Hb) as (c & Hc & Hiff).
    exists c. split; [exact Hc|].
    rewrite Hiff. split; [intros ->; reflexivity|congruence].
  - exists false. split; [reflexivity|split; discriminate].
  - exists false. split; [reflexivity|split; discriminate].
  - exists true. split; [reflexivity|split; reflexivity].
Qed.

Section Properties.

Context {C : Type} {color : Color}.

Implicit Types (w : World C) (name content : string).

(** *** The printing layer *)

Lemma println_ok content w :
  0 <= indent (suite w) ->
  println content w
  = (Done tt, on_stdout (fun out => (out ++ [indented (suite w) content])%list) w).
Proof.
  intros H. unfold println, bind, get_s, gets, strings_Repeat.
  destruct (Z.ltb_spec (indent (suite w)) 0) as [Hneg|_]; [lia|].
  reflexivity.
Qed.

Lemma println_negative content w :
  indent (suite w) < 0 ->
  println content w = (Panicking (VString "strings: negative Repeat count"), w).
Proof.
  intros H. unfold println, bind, get_s, gets, strings_Repeat.
  destruct (Z.ltb_spec (indent (suite w)) 0) as [_|Hpos]; [reflexivity|lia].
Qed.

Lemma println_indent content w :
  indent (suite (snd (println content w))) = indent (suite w).
Proof.
  destruct (Z.lt_ge_cases (indent (suite w)) 0) as [H|H].
  - rewrite println_negative by assumption. reflexivity.
  - rewrite println_ok by assumption. reflexivity.
Qed.

(** *** Balance of the indentation *)

Lemma snd_during_exit {A B} (p : result A * World C) :
  snd (during_exit (B:=B) p) = snd p.
Proof. destruct p as [[a|v| |v] w]; reflexivity. Qed.

Lemma balanced_le {A} (n n' : nat) (m : M C A) :
  (n <= n')%nat -> balanced n m -> balanced n' m.
Proof. intros Hle Hm w H0 Hmax. apply Hm; lia. Qed.

Lemma balanced_bind {A B} n (m : M C A) (k : A -> M C B) :
  balanced n m -> (forall a, balanced n (k a)) -> balanced n (bind m k).
Proof.
  intros Hm Hk w H0 Hmax. unfold bind.
  specialize (Hm w H0 Hmax).
  destruct (m w) as [[a|v| |v] w1]; simpl in *; try assumption.
  rewrite <- Hm. apply Hk; rewrite Hm; assumption.
Qed.

Lemma balanced_defer {A} n (cleanup : M C unit) (body : M C A) :
  balanced n cleanup -> balanced n body -> balanced n (defer cleanup body).
Proof.
  intros Hc Hb w H0 Hmax. unfold defer.
  specialize (Hb w H0 Hmax).
  destruct (body w) as [r w1]; simpl in Hb.
  assert (Hc1 : indent (suite (snd (cleanup w1))) = indent (suite w1))
    by (apply Hc; rewrite Hb; assumption).
  destruct (cleanup w1) as [[u|v| |v] w2]; simpl in *; congruence.
Qed.

Lemma balanced_defer_recover {A} n (handler : iface -> A -> M C A) zero body :
  (forall err a, balanced n (handler err a)) -> balanced n body ->
  balanced n (defer_recover handler zero body).
Proof.
  intros Hh Hb w H0 Hmax. unfold defer_recover.
  specialize (Hb w H0 Hmax).
  destruct (body w) as [[a|v| |v] w1]; simpl in Hb.
  - rewrite <- Hb. apply Hh; rewrite Hb; assumption.
  - rewrite <- Hb. apply Hh; rewrite Hb; assumption.
  - rewrite snd_during_exit, <- Hb. apply Hh; rewrite Hb; assumption.
  - rewrite snd_during_exit, <- Hb. apply Hh; rewrite Hb; assumption.
Qed.

Lemma keeps_balanced {A} n (m : M C A) : keeps_indent m -> balanced n m.
Proof. intros H w _ _. apply H. Qed.

Lemma keeps_bind {A B} (m : M C A) (k : A -> M C B) :
  keeps_indent m -> (forall a, keeps_indent (k a)) -> keeps_indent (bind m k).
Proof.
  intros Hm Hk w. unfold bind. specialize (Hm w).
  destruct (m w) as [[a|v| |v] w1]; simpl in *; try assumption.
  rewrite Hk. assumption.
Qed.

Lemma keeps_println content : keeps_indent (println (C:=C) content).
Proof. intros w. apply println_indent. Qed.

Lemma keeps_counter (f : Suite -> Suite) :
  (forall s, indent (f s) = indent s) -> keeps_indent (update_s (C:=C) f).
Proof. intros H w. simpl. apply H. Qed.

Lemma keeps_T_Error arg : keeps_indent (T_Error (C:=C) arg).
Proof. intros w. reflexivity. Qed.

Lemma keeps_T_Fatal arg : keeps_indent (T_Fatal (C:=C) arg).
Proof. intros w. reflexivity. Qed.

Lemma keeps_fail_report name (last : M C unit) :
  keeps_indent last ->
  keeps_indent (update_s (set_failed (fun n => GoInt.add n 1)) ;; fail name ;; last).
Proof.
  intros Hl. apply keeps_bind; [apply keeps_counter; reflexivity|intros _].
  apply keeps_bind; [apply keeps_println|intros _; assumption].
Qed.

Lemma keeps_pass_report name :
  keeps_indent (update_s (C:=C) (set_passed (fun n => GoInt.add n 1)) ;; ok name).
Proof.
  apply keeps_bind; [apply keeps_counter; reflexivity|intros _].
  apply keeps_println.
Qed.

Lemma balanced_Check n name (test : SuiteTestHandler C) :
  balanced n test -> balanced n (Check name test).
Proof.
  intros Ht. unfold Check. apply balanced_defer_recover.
  - intros [err|] _; [|intros w _ _; reflexivity].
    apply keeps_balanced, keeps_fail_report.
    destruct err as [| | | | | |e]; try apply keeps_T_Error.
    destruct (critical e); [apply keeps_T_Fatal|apply keeps_T_Error].
  - apply balanced_bind; [assumption|intros err].
    apply keeps_balanced, keeps_bind; [|intros _; apply keeps_pass_report].
    destruct err as [err|]; [|intros w; reflexivity].
    apply keeps_fail_report, keeps_T_Error.
Qed.

Lemma balanced_Critical n name (test : SuiteTestHandler C) :
  balanced n test -> balanced n (Critical name test).
Proof.
  intros Ht. unfold Critical. apply balanced_defer_recover.
  - intros [err|] _; [|intros w _ _; reflexivity].
    apply keeps_balanced, keeps_fail_report, keeps_T_Fatal.
  - apply balanced_bind; [assumption|intros err].
    apply keeps_balanced, keeps_bind; [|intros _; apply keeps_pass_report].
    destruct err as [err|]; [|intros w; reflexivity].
    apply keeps_fail_report, keeps_T_Fatal.
Qed.

Lemma keeps_Skip name (test : SuiteTestHandler C) : keeps_indent (Skip name test).
Proof.
  unfold Skip. apply keeps_bind; [apply keeps_counter; reflexivity|intros _].
  apply keeps_println.
Qed.

Lemma balanced_Try n (try : Body C) (catch : option (value -> M C unit)) :
  balanced n try ->
  (forall f, catch = Some f -> forall err, balanced n (f err)) ->
  balanced n (Try try catch).
Proof.
  intros Ht Hc. unfold Try. apply balanced_defer_recover.
  - intros [err|] _; [|intros w _ _; reflexivity].
    apply balanced_bind; [|intros _ w _ _; reflexivity].
    destruct catch as [f|]; [apply (Hc f eq_refl)|intros w _ _; reflexivity].
  - apply balanced_bind; [assumption|intros _ w _ _; reflexivity].
Qed.

Lemma keeps_Assert (actual expect : iface) :
  keeps_indent (Assert (C:=C) actual expect).
Proof.
  intros w. unfold Assert. destruct (iface_eq actual expect) as [[|]|]; reflexivity.
Qed.

(** *** [Title] and [Start], step by step *)

Lemma Title_unfold name (test : Body C) w :
  0 <= indent (suite w) ->
  Title name test w
  = (fst (test (Title_enter name w)),
     on_suite (set_indent (fun i => GoInt.sub i 2))
       (snd (test (Title_enter name w)))).
Proof.
  intros H0. unfold Title, defer, title.
  unfold bind at 1. rewrite println_ok by assumption.
  unfold bind at 1. rewrite println_ok by assumption.
  unfold bind at 1. rewrite println_ok by assumption.
  unfold bind at 1. simpl.
  match goal with |- context [test ?x] =>
    replace x with (Title_enter name w)
  end.
  2:{ unfold Title_enter, on_stdout, on_suite. simpl.
      rewrite <- !app_assoc. reflexivity. }
  destruct (test (Title_enter name w)) as [r w1]. reflexivity.
Qed.

Lemma balanced_Title n name (test : Body C) :
  balanced n test -> balanced (S n) (Title name test).
Proof.
  intros Ht w H0 Hmax. rewrite Title_unfold by assumption. simpl.
  assert (Hin : indent (suite (Title_enter name w)) = indent (suite w) + 2).
  { simpl. apply GoInt_add_exact. unfold GoInt.is_int, GoInt.int_min in *. lia. }
  rewrite Ht; rewrite Hin; try lia.
  rewrite GoInt_sub_exact; unfold GoInt.is_int, GoInt.int_min in *; lia.
Qed.

Lemma finished_ok w :
  0 <= indent (suite w) ->
  finished w = (Done tt, on_stdout (fun out => (out ++ summary (suite w))%list) w).
Proof.
  intros H0. unfold finished.
  unfold bind at 1. rewrite println_ok by assumption.
  unfold bind at 1. unfold get_s at 1, gets at 1.
  unfold bind at 1. rewrite println_ok by assumption.
  unfold bind at 1. unfold get_s at 1, gets at 1.
  unfold bind at 1. rewrite println_ok by assumption.
  unfold bind at 1. unfold get_s at 1, gets at 1.
  unfold bind at 1. rewrite println_ok by assumption.
  unfold bind at 1. unfold get_s at 1, gets at 1.
  rewrite println_ok by assumption.
  unfold on_stdout, summary. simpl. rewrite <- !app_assoc. reflexivity.
Qed.

Lemma keeps_finished : keeps_indent (C:=C) finished.
Proof.
  unfold finished.
  apply keeps_bind; [apply keeps_println|intros _].
  do 3 (apply keeps_bind; [intros w; reflexivity|intros ?];
        apply keeps_bind; [apply keeps_println|intros _]).
  apply keeps_bind; [intros w; reflexivity|intros ?].
  apply keeps_println.
Qed.

Lemma balanced_Start n name (test : Body C) :
  balanced n test -> balanced (S n) (Start name test).
Proof.
  intros Ht. unfold Start. apply balanced_defer.
  - apply keeps_balanced, keeps_finished.
  - apply balanced_Title, Ht.
Qed.

(** Caller code leaves the indentation as it found it. *)
Lemma caller_balanced {A} n (m : M C A) : caller n m -> balanced n m.
Proof.
  induction 1.
  - intros w _ _; reflexivity.
  - apply balanced_bind; assumption.
  - intros w _ _. unfold own. destruct (f (client w)); reflexivity.
  - intros w _ _; reflexivity.
  - intros w _ _; reflexivity.
  - intros w _ _; reflexivity.
  - apply keeps_balanced, keeps_T_Error.
  - apply keeps_balanced, keeps_T_Fatal.
  - apply balanced_defer; assumption.
  - apply balanced_defer_recover; assumption.
  - apply balanced_Start; assumption.
  - apply balanced_Title; assumption.
  - apply balanced_Check; assumption.
  - apply balanced_Critical; assumption.
  - apply keeps_balanced, keeps_Skip.
  - apply balanced_Try; assumption.
  - apply keeps_balanced, keeps_Assert.
  - apply keeps_balanced. unfold Info, info. apply keeps_println.
  - intros w _ _; reflexivity.
  - intros w _ _; reflexivity.
  - eapply balanced_le; [|eassumption]. lia.
Qed.

Lemma caller_println_safe {A} n (m : M C A) w :
  caller n m ->
  0 <= indent (suite w) ->
  indent (suite w) + 2 * Z.of_nat n <= GoInt.int_max ->
  0 <= indent (suite (snd (m w))).
Proof.
  intros Hc H0 Hmax. rewrite (caller_balanced n m Hc w H0 Hmax). exact H0.
Qed.

(** *** Running one test *)

Ltac run_println :=
  unfold fail, ok, skip, info, title;
  repeat first
    [ rewrite println_ok by (simpl; assumption)
    | progress (unfold bind at 1; simpl) ].


(** What [Check] does with a test that returns an error. *)
Lemma Check_returned_error name (test : SuiteTestHandler C) w w1 err :
  test w = (Done (Some err), w1) ->
  0 <= indent (suite w1) ->
  Check name test w
  = (Done tt,
     {| suite := {| T := (T (suite w1) ++ [TError (VError err)])%list;
                    indent := indent (suite w1);
                    passed := GoInt.add (passed (suite w1)) 1;
                    failed := GoInt.add (failed (suite w1)) 1;
                    skiped := skiped (suite w1) |};
        stdout := (stdout w1
                   ++ [indented (suite w1)
                         ("[" ++ HiRedString "Fail" ++ "] " ++ name);
                       indented (suite w1)
                         ("[" ++ HiGreenString "Done" ++ "] " ++ name)])%list;
        client := client w1 |}).
Proof.
  intros Htest H0.
  unfold Check, defer_recover. unfold bind at 1. rewrite Htest.
  run_println. unfold on_stdout. simpl. rewrite <- app_assoc. reflexivity.
Qed.

(** What [Check] does with a test that panics with a value other than a
    [suiteError]: the [default] case of its type switch. *)
Lemma Check_other_panic name (test : SuiteTestHandler C) w w1 v :
  test w = (Panicking v, w1) ->
  (forall e, v <> VSuiteError e) ->
  0 <= indent (suite w1) ->
  Check name test w
  = (Done tt,
     {| suite := {| T := (T (suite w1) ++ [TError v])%list;
                    indent := indent (suite w1);
                    passed := passed (suite w1);
                    failed := GoInt.add (failed (suite w1)) 1;
                    skiped := skiped (suite w1) |};
        stdout := (stdout w1
                   ++ [indented (suite w1)
                         ("[" ++ HiRedString "Fail" ++ "] " ++ name)])%list;
        client := client w1 |}).
Proof.
  intros Htest Hv H0.
  unfold Check, defer_recover. unfold bind at 1. rewrite Htest.
  run_println.
  destruct v as [| | | | | |e]; try reflexivity.
  exfalso. apply (Hv e). reflexivity.
Qed.

(** C4. [Critical] has no recoverable path.  Whatever way the test fails
    when it comes back to [Critical] (an error returned, a panic with the
    Recoverable or the Fatal [suiteError], a panic with any other value),
    [failed] goes up by one, one Fail line is written, [T.Fatal] is called
    with the failure and the goroutine exits, [passed] untouched.  Only a
    test that returns [nil] makes [passed] go up by one and writes the Done
    line.  (A test during which the run was already ended by [T.Fatal]
    never comes back: the exit goes on through [Critical]; a panic the test
    raised during that exit is recovered and answered like any other.  The
    world [w1] the test leaves is one [println] accepts.) *)
Theorem Critical_no_recoverable_path name (test : SuiteTestHandler C) w r w1 :
  test w = (r, w1) ->
  0 <= indent (suite w1) ->
  let w_fail (arg : value) :=
    {| suite := {| T := (T (suite w1) ++ [TFatal arg])%list;
                   indent := indent (suite w1);
                   passed := passed (suite w1);
                   failed := GoInt.add (failed (suite w1)) 1;
                   skiped := skiped (suite w1) |};
       stdout := (stdout w1
                  ++ [indented (suite w1)
                        ("[" ++ HiRedString "Fail" ++ "] " ++ name)])%list;
       client := client w1 |} in
  let w_pass :=
    {| suite := {| T := T (suite w1);
                   indent := indent (suite w1);
                   passed := GoInt.add (passed (suite w1)) 1;
                   failed := failed (suite w1);
                   skiped := skiped (suite w1) |};
       stdout := (stdout w1
                  ++ [indented (suite w1)
                        ("[" ++ HiGreenString "Done" ++ "] " ++ name)])%list;
       client := client w1 |} in
  match r with
  | Done None => Critical name test w = (Done tt, w_pass)
  | Done (Some err) => Critical name test w = (Goexit, w_fail (VError err))
  | Panicking v => Critical name test w = (Goexit, w_fail v)
  | Goexit => Critical name test w = (Goexit, w1)
  | PanickingInGoexit v => Critical name test w = (Goexit, w_fail v)
  end
  /\ (GoInt.int_min <= failed (suite w1) < GoInt.int_max ->
      forall arg, failed (suite (w_fail arg)) = failed (suite w1) + 1)
  /\ (GoInt.int_min <= passed (suite w1) < GoInt.int_max ->
      passed (suite w_pass) = passed (suite w1) + 1).
Proof.
  intros Htest H0 w_fail w_pass. split; [|split].
  - destruct r as [[err|]|v| |v];
      unfold Critical, defer_recover; cbv zeta; unfold bind at 1;
      rewrite Htest; run_println; reflexivity.
  - intros Hr arg. simpl. apply GoInt_add_exact.
    unfold GoInt.is_int, GoInt.int_min, GoInt.int_max in *. lia.
  - intros Hr. simpl. apply GoInt_add_exact.
    unfold GoInt.is_int, GoInt.int_min, GoInt.int_max in *. lia.
Qed.

(** C9. [Skip] never calls the test it is given: its effect is the same
    whatever the test, and consists of [skiped] going up by one and one Skip
    line for [name]; the caller's own state, where a probe would leave its
    trace, is untouched.  (The world is one [println] accepts.) *)
Theorem Skip_never_runs_test name (test : SuiteTestHandler C) w :
  0 <= indent (suite w) ->
  let w' :=
    {| suite := {| T := T (suite w);
                   indent := indent (suite w);
                   passed := passed (suite w);
                   failed := failed (suite w);
                   skiped := GoInt.add (skiped (suite w)) 1 |};
       stdout := (stdout w
                  ++ [indented (suite w)
                        ("[" ++ HiBlueString "Skip" ++ "] "
                         ++ HiBlackString name)])%list;
       client := client w |} in
  Skip name test w = (Done tt, w')
  /\ (forall test' : SuiteTestHandler C, Skip name test' w = Skip name test w)
  /\ (GoInt.int_min <= skiped (suite w) < GoInt.int_max ->
      skiped (suite w') = skiped (suite w) + 1).
Proof.
  intros H0 w'. split; [|split].
  - unfold Skip. run_println. reflexivity.
  - reflexivity.
  - intros Hr. simpl. apply GoInt_add_exact.
    unfold GoInt.is_int, GoInt.int_min, GoInt.int_max in *. lia.
Qed.


(** *** Groups *)

(** C6. Around a [Title] and around a [Start] the indentation is balanced:
    whichever way the body ends (it returns, a panic unwinds through the
    group, the goroutine exits after [T.Fatal]), the group ends the same
    way and the indentation is back at its value before the call.  The
    body is any caller code; the start is a world [println] accepts, with
    room in [int] for the levels the body nests. *)
Theorem Title_Start_restore_indent n name (test : Body C) w :
  caller n test ->
  0 <= indent (suite w) ->
  indent (suite w) + 2 * Z.of_nat (S n) <= GoInt.int_max ->
  (fst (Title name test w) = fst (test (Title_enter name w))
   /\ indent (suite (snd (Title name test w))) = indent (suite w))
  /\ (fst (Start name test w) = fst (test (Title_enter name w))
      /\ indent (suite (snd (Start name test w))) = indent (suite w)).
Proof.
  intros Hc H0 Hmax.
  pose proof (balanced_Title n name test (caller_balanced n test Hc) w H0 Hmax)
    as Hbal.
  split.
  - split; [rewrite Title_unfold by assumption; reflexivity|exact Hbal].
  - unfold Start, defer.
    destruct (Title name test w) as [r w1] eqn:ET. simpl in Hbal.
    rewrite finished_ok by (rewrite Hbal; assumption). simpl.
    split; [|exact Hbal].
    rewrite Title_unfold in ET by assumption. inversion ET. reflexivity.
Qed.

(** C7. [Start] writes the final block once, after everything the group
    wrote and whichever way the group ended: the marker [=== FINISHED], the
    counters under [Passed], [Failed] and [Skiped], and the [Total] line,
    whose value is the sum of the three counters. *)
Theorem Start_prints_summary_once n name (test : Body C) w r w1 :
  caller n test ->
  0 <= indent (suite w) ->
  indent (suite w) + 2 * Z.of_nat (S n) <= GoInt.int_max ->
  Title name test w = (r, w1) ->
  Start name test w
  = (r,
     {| suite := suite w1;
        stdout :=
          (stdout w1
           ++ [ indented (suite w) (nl ++ "=== FINISHED" ++ nl);
                indented (suite w)
                  (HiGreenString "Passed" ++ ": "
                   ++ Fmt.of_int (passed (suite w1)));
                indented (suite w)
                  (HiRedString "Failed" ++ ": "
                   ++ Fmt.of_int (failed (suite w1)));
                indented (suite w)
                  (HiBlueString "Skiped" ++ ": "
                   ++ Fmt.of_int (skiped (suite w1)));
                indented (suite w)
                  (nl ++ "Total: "
                   ++ Fmt.of_int (GoInt.add
                                    (GoInt.add (passed (suite w1))
                                               (failed (suite w1)))
                                    (skiped (suite w1)))
                   ++ nl) ])%list;
        client := client w1 |})
  /\ (0 <= passed (suite w1) -> 0 <= failed (suite w1) ->
      0 <= skiped (suite w1) ->
      passed (suite w1) + failed (suite w1) + skiped (suite w1)
        <= GoInt.int_max ->
      GoInt.add (GoInt.add (passed (suite w1)) (failed (suite w1)))
                (skiped (suite w1))
      = passed (suite w1) + failed (suite w1) + skiped (suite w1)).
Proof.
  intros Hc H0 Hmax ET.
  pose proof (balanced_Title n name test (caller_balanced n test Hc) w H0 Hmax)
    as Hbal.
  rewrite ET in Hbal. simpl in Hbal.
  split.
  - unfold Start, defer. rewrite ET.
    rewrite finished_ok by (rewrite Hbal; assumption).
    unfold on_stdout, summary, indented. rewrite Hbal. reflexivity.
  - intros Hp Hf Hs Hsum.
    rewrite (GoInt_add_exact (passed (suite w1)) (failed (suite w1)))
      by (unfold GoInt.is_int, GoInt.int_min, GoInt.int_max in *; lia).
    apply GoInt_add_exact.
    unfold GoInt.is_int, GoInt.int_min, GoInt.int_max in *. lia.
Qed.

(** C10. A Recoverable or Fatal signal that reaches the frame of [Title]
    (raised in the body outside any [Check], [Critical] or [Try]) is not
    recovered there nor in [Start]: both end panicking with the same
    [suiteError].  Neither adds to a counter, to the host's record or a Fail
    line: counters, record and output are those of the world [w1] in which
    the signal was raised.  The deferred calls still run: the indentation is
    back at its value before the call, and [Start] appends its block. *)
Theorem Title_Start_do_not_recover n name (test : Body C) w e w1 :
  caller n test ->
  0 <= indent (suite w) ->
  indent (suite w) + 2 * Z.of_nat (S n) <= GoInt.int_max ->
  test (Title_enter name w) = (Panicking (VSuiteError e), w1) ->
  let w' :=
    {| suite := {| T := T (suite w1);
                   indent := indent (suite w);
                   passed := passed (suite w1);
                   failed := failed (suite w1);
                   skiped := skiped (suite w1) |};
       stdout := stdout w1;
       client := client w1 |} in
  Title name test w = (Panicking (VSuiteError e), w')
  /\ Start name test w
     = (Panicking (VSuiteError e),
        on_stdout (fun out => (out ++ summary (suite w'))%list) w').
Proof.
  intros Hc H0 Hmax Htest w'.
  pose proof (balanced_Title n name test (caller_balanced n test Hc) w H0 Hmax)
    as Hbal.
  assert (ET : Title name test w = (Panicking (VSuiteError e), w')).
  { rewrite Title_unfold in Hbal |- * by assumption.
    rewrite Htest in Hbal |- *. simpl in Hbal |- *.
    unfold w', on_suite, set_indent. simpl. rewrite Hbal. reflexivity. }
  split; [exact ET|].
  unfold Start, defer. rewrite ET.
  rewrite finished_ok by exact H0. reflexivity.
Qed.

(** *** [Assert] *)

(** C3, as the code has it.  For operands that [==] can compare: when they
    are equal [Assert] returns and changes nothing; when they are not it
    panics, and the value of the panic is exactly the string
    [Expect "<expected>", got "<actual>"], a plain string: [Assert] never
    raises a [suiteError], the type of the Recoverable and Fatal signals.
    On values compared by content [==] is equality.  In particular
    [Assert(5, 5)] returns and [Assert(5, 6)] panics with the string
    [Expect "6", got "5"]. *)
Theorem Assert_panics_with_plain_message (actual expect : iface) (b : bool) w :
  iface_eq actual expect = Some b ->
  Assert actual expect w
  = (if b then (Done tt, w)
     else (Panicking
             (VString ("Expect " ++ dquote ++ Fmt.v expect ++ dquote
                       ++ ", got " ++ dquote ++ Fmt.v actual ++ dquote)), w))
  /\ (forall e, fst (Assert actual expect w) <> Panicking (VSuiteError e))
  /\ (by_value actual = true -> by_value expect = true ->
      (b = true <-> actual = expect))
  /\ Assert (Some (VInt 5)) (Some (VInt 5)) w = (Done tt, w)
  /\ Assert (Some (VInt 5)) (Some (VInt 6)) w
     = (Panicking (VString ("Expect " ++ dquote ++ "6" ++ dquote
                            ++ ", got " ++ dquote ++ "5" ++ dquote)), w).
Proof.
  intros Heq. split; [|split; [|split; [|split]]].
  - unfold Assert. rewrite Heq. destruct b; reflexivity.
  - intros e. unfold Assert. rewrite Heq. destruct b; discriminate.
  - intros Ha He.
    destruct (iface_eq_by_value actual expect Ha He) as (c & Hc & Hiff).
    rewrite Heq in Hc. inversion Hc. subst c. exact Hiff.
  - reflexivity.
  - reflexivity.
Qed.

End Properties.

(** ** Further properties of the runners and of whole runs *)

Section Runs.

Context {C : Type} {color : Color}.

Implicit Types (w : World C) (name content : string).

Ltac printing :=
  unfold fail, ok, skip, info, title;
  repeat first
    [ rewrite println_ok by (simpl; assumption)
    | progress (unfold bind at 1; simpl) ].

Lemma Check_nil name (test : SuiteTestHandler C) w w1 :
  test w = (Done None, w1) -> 0 <= indent (suite w1) ->
  Check name test w = (Done tt, counted_passed w1 name).
Proof.
  intros Htest H0.
  unfold Check, defer_recover. unfold bind at 1. rewrite Htest.
  printing. reflexivity.
Qed.

Lemma Check_signal name (test : SuiteTestHandler C) w w1 e :
  test w = (Panicking (VSuiteError e), w1) -> 0 <= indent (suite w1) ->
  Check name test w
  = if critical e then (Goexit, reported w1 name (TFatal (VString (msg e))))
    else (Done tt, reported w1 name (TError (VString (msg e)))).
Proof.
  intros Htest H0.
  unfold Check, defer_recover. unfold bind at 1. rewrite Htest.
  printing. destruct (critical e); reflexivity.
Qed.

Lemma Critical_failing name (test : SuiteTestHandler C) w r w1 arg :
  test w = (r, w1) -> 0 <= indent (suite w1) ->
  r = Panicking arg \/ (exists err, r = Done (Some err) /\ arg = VError err) ->
  Critical name test w = (Goexit, reported w1 name (TFatal arg)).
Proof.
  intros Htest H0 [->|(err & -> & ->)];
    unfold Critical, defer_recover; cbv zeta; unfold bind at 1;
    rewrite Htest; printing; reflexivity.
Qed.


(** X1.  [Check] of a test that returns [nil]: [passed] goes up by one, one
    Done line is written, nothing goes to the host, [failed] stays and
    [Check] returns.  ([w1], the world the test leaves, is one [println]
    accepts.) *)
Theorem Check_nil_return_passes name (test : SuiteTestHandler C) w w1 :
  test w = (Done None, w1) ->
  0 <= indent (suite w1) ->
  let w' :=
    {| suite := {| T := T (suite w1);
                   indent := indent (suite w1);
                   passed := GoInt.add (passed (suite w1)) 1;
                   failed := failed (suite w1);
                   skiped := skiped (suite w1) |};
       stdout := (stdout w1
                  ++ [indented (suite w1)
                        ("[" ++ HiGreenString "Done" ++ "] " ++ name)])%list;
       client := client w1 |} in
  Check name test w = (Done tt, w')
  /\ (GoInt.int_min <= passed (suite w1) < GoInt.int_max ->
      passed (suite w') = passed (suite w1) + 1).
Proof.
  intros Htest H0 w'. split.
  - apply Check_nil; assumption.
  - intros Hr. simpl. apply GoInt_add_exact.
    unfold GoInt.is_int, GoInt.int_min, GoInt.int_max in *. lia.
Qed.

(** X2.  [Check] of a test that raises the Fatal signal ([Fatal(msg)]):
    [failed] goes up by one, one Fail line is written, [T.Fatal] gets the
    message (the string, not the [suiteError]) and the goroutine exits:
    [passed] stays and nothing that follows the check runs. *)
Theorem Check_Fatal_signal_ends_the_run name (test : SuiteTestHandler C) w w1 m :
  test w = (Panicking (VSuiteError {| critical := true; msg := m |}), w1) ->
  0 <= indent (suite w1) ->
  let w' :=
    {| suite := {| T := (T (suite w1) ++ [TFatal (VString m)])%list;
                   indent := indent (suite w1);
                   passed := passed (suite w1);
                   failed := GoInt.add (failed (suite w1)) 1;
                   skiped := skiped (suite w1) |};
       stdout := (stdout w1
                  ++ [indented (suite w1)
                        ("[" ++ HiRedString "Fail" ++ "] " ++ name)])%list;
       client := client w1 |} in
  Check name test w = (Goexit, w')
  /\ (forall A (next : M C A), (Check name test ;; next) w = (Goexit, w')).
Proof.
  intros Htest H0 w'.
  assert (E : Check name test w = (Goexit, w'))
    by (rewrite (Check_signal name test w w1 _ Htest H0); reflexivity).
  split; [exact E|].
  intros A next. unfold bind. rewrite E. reflexivity.
Qed.


(** X9.  [Info] writes one line, the text wrapped by [HiBlackString] behind
    the indentation, and changes nothing else; when the indentation is
    negative it writes nothing and panics with the value [strings.Repeat]
    raises. *)
Theorem Info_writes_one_line content w :
  Info content w
  = if Z.ltb (indent (suite w)) 0
    then (Panicking (VString "strings: negative Repeat count"), w)
    else (Done tt,
          {| suite := suite w;
             stdout := (stdout w
                        ++ [indented (suite w) (HiBlackString content)])%list;
             client := client w |}).
Proof.
  unfold Info, info.
  destruct (Z.ltb_spec (indent (suite w)) 0) as [Hneg|Hpos].
  - apply println_negative; assumption.
  - rewrite println_ok by assumption. reflexivity.
Qed.

(** X10.  An [Assert] in a test run by [Critical]: when the operands are
    equal the test goes on as if the [Assert] were not there; when they are
    not, the rest of the test does not run, the failure is counted and
    reported with [T.Fatal], whose argument is the Expect message, and the
    goroutine exits. *)
Theorem Assert_under_Critical name (actual expect : iface) (b : bool)
    (rest : SuiteTestHandler C) w :
  iface_eq actual expect = Some b ->
  0 <= indent (suite w) ->
  Critical name (Assert actual expect ;; rest) w
  = if b then Critical name rest w
    else (Goexit,
          {| suite := {| T := (T (suite w)
                               ++ [TFatal
                                     (VString
                                        ("Expect " ++ dquote ++ Fmt.v expect
                                         ++ dquote ++ ", got " ++ dquote
                                         ++ Fmt.v actual ++ dquote))])%list;
                         indent := indent (suite w);
                         passed := passed (suite w);
                         failed := GoInt.add (failed (suite w)) 1;
                         skiped := skiped (suite w) |};
             stdout := (stdout w
                        ++ [indented (suite w)
                              ("[" ++ HiRedString "Fail" ++ "] " ++ name)])%list;
             client := client w |}).
Proof.
  intros Heq H0. destruct b.
  - unfold Critical, defer_recover. cbv zeta. unfold bind at 1 3.
    unfold bind at 1. unfold Assert. rewrite Heq. reflexivity.
  - rewrite (Critical_failing name (Assert actual expect ;; rest) w
               (Panicking (VString ("Expect " ++ dquote ++ Fmt.v expect
                                    ++ dquote ++ ", got " ++ dquote
                                    ++ Fmt.v actual ++ dquote)))
               w _ ltac:(unfold bind, Assert; rewrite Heq; reflexivity) H0
               (or_introl eq_refl)).
    reflexivity.
Qed.

(** X11.  An [Assert] in a test run by [Check]: when the operands are equal
    the test goes on as if the [Assert] were not there; when they are not,
    the rest of the test does not run, the failure is counted, the Expect
    message goes to [T.Error], and [Check] returns. *)
Theorem Assert_under_Check name (actual expect : iface) (b : bool)
    (rest : SuiteTestHandler C) w :
  iface_eq actual expect = Some b ->
  0 <= indent (suite w) ->
  Check name (Assert actual expect ;; rest) w
  = if b then Check name rest w
    else (Done tt,
          {| suite := {| T := (T (suite w)
                               ++ [TError
                                     (VString
                                        ("Expect " ++ dquote ++ Fmt.v expect
                                         ++ dquote ++ ", got " ++ dquote
                                         ++ Fmt.v actual ++ dquote))])%list;
                         indent := indent (suite w);
                         passed := passed (suite w);
                         failed := GoInt.add (failed (suite w)) 1;
                         skiped := skiped (suite w) |};
             stdout := (stdout w
                        ++ [indented (suite w)
                              ("[" ++ HiRedString "Fail" ++ "] " ++ name)])%list;
             client := client w |}).
Proof.
  intros Heq H0. destruct b.
  - unfold Check, defer_recover. unfold bind at 1 3.
    unfold bind at 1. unfold Assert. rewrite Heq. reflexivity.
  - apply Check_other_panic; [|discriminate|exact H0].
    unfold bind, Assert. rewrite Heq. reflexivity.
Qed.

(** *** Runs of checks and nested groups *)

Lemma Skip_run name (test : SuiteTestHandler C) w :
  0 <= indent (suite w) ->
  Skip name test w
  = (Done tt,
     {| suite := set_skiped (fun n => GoInt.add n 1) (suite w);
        stdout := (stdout w
                   ++ [indented (suite w)
                         ("[" ++ HiBlueString "Skip" ++ "] "
                          ++ HiBlackString name)])%list;
        client := client w |}).
Proof. intros H0. unfold Skip. printing. reflexivity. Qed.

Lemma call_line_indent (s s' : Suite) (c : call C) :
  indent s = indent s' -> call_line s c = call_line s' c.
Proof. intros H. destruct c; unfold call_line, indented; rewrite H; reflexivity. Qed.

Lemma checks_cons (c : call C) l :
  checks (c :: l) = (if is_check c then 1 else 0) + checks l.
Proof. unfold checks. simpl. destruct (is_check c); cbn [List.length]; lia. Qed.

Lemma skips_cons (c : call C) l :
  skips (c :: l) = (if is_check c then 0 else 1) + skips l.
Proof. unfold skips. simpl. destruct (is_check c); cbn [List.length negb]; lia. Qed.

Lemma checks_nonneg (l : list (call C)) : 0 <= checks l.
Proof. unfold checks. lia. Qed.

Lemma skips_nonneg (l : list (call C)) : 0 <= skips l.
Proof. unfold skips. lia. Qed.

Local Opaque Z.add Z.sub Z.mul Z.of_nat.

(** X3.  A run of checks whose tests return [nil] and of skipped tests,
    whatever these are: every call writes its line, in order; [passed] goes
    up by the number of checks and [skiped] by the number of skips;
    [failed] and the host's record are untouched.  (Counters away from the
    largest [int].) *)
Theorem passing_checks_and_skips_add_up (l : list (call C)) w :
  Forall passes_quietly l ->
  0 <= indent (suite w) ->
  GoInt.int_min <= passed (suite w) ->
  passed (suite w) + checks l <= GoInt.int_max ->
  GoInt.int_min <= skiped (suite w) ->
  skiped (suite w) + skips l <= GoInt.int_max ->
  exists c,
    run_calls l w
    = (Done tt,
       {| suite := {| T := T (suite w);
                      indent := indent (suite w);
                      passed := passed (suite w) + checks l;
                      failed := failed (suite w);
                      skiped := skiped (suite w) + skips l |};
          stdout := (stdout w ++ map (call_line (suite w)) l)%list;
          client := c |}).
Proof.
  intros Hq. revert w.
  induction Hq as [|c l Hc Hl IH]; intros w H0 Hp Hpmax Hs Hsmax.
  - exists (client w). simpl. unfold ret, checks, skips. simpl.
    rewrite !Z.add_0_r, app_nil_r. destruct w as [[] ? ?]. reflexivity.
  - rewrite checks_cons in Hpmax. rewrite skips_cons in Hsmax.
    pose proof (checks_nonneg l). pose proof (skips_nonneg l).
    destruct c as [name test|name test];
      cbn [is_check passes_quietly run_calls] in Hc, Hpmax, Hsmax |- *.
    + destruct (Hc w) as [c Htest].
      unfold bind at 1.
      rewrite (Check_nil name test w _ Htest) by exact H0.
      set (w2 := counted_passed (on_client (fun _ => c) w) name).
      assert (Hp2 : passed (suite w2) = passed (suite w) + 1).
      { simpl. apply GoInt_add_exact.
        unfold GoInt.is_int, GoInt.int_min, GoInt.int_max in *. lia. }
      destruct (IH w2) as [c' E];
        [exact H0|rewrite Hp2; lia|rewrite Hp2; lia|exact Hs|simpl; lia|].
      exists c'. rewrite E, Hp2, checks_cons, skips_cons.
      cbn [is_check].
      rewrite (map_ext _ _ (fun a => call_line_indent (suite w2) (suite w) a
                                       eq_refl)).
      replace (passed (suite w) + 1 + checks l)
        with (passed (suite w) + (1 + checks l)) by lia.
      replace (0 + skips l) with (skips l) by lia.
      subst w2. unfold counted_passed. simpl.
      rewrite <- app_assoc. reflexivity.
    + unfold bind at 1. rewrite Skip_run by exact H0.
      set (w2 := {| suite := set_skiped (fun n => GoInt.add n 1) (suite w);
                    stdout := (stdout w
                               ++ [indented (suite w)
                                     ("[" ++ HiBlueString "Skip" ++ "] "
                                      ++ HiBlackString name)])%list;
                    client := client w |}).
      assert (Hs2 : skiped (suite w2) = skiped (suite w) + 1).
      { simpl. apply GoInt_add_exact.
        unfold GoInt.is_int, GoInt.int_min, GoInt.int_max in *. lia. }
      destruct (IH w2) as [c' E];
        [exact H0|exact Hp|simpl; lia|rewrite Hs2; lia|rewrite Hs2; lia|].
      exists c'. rewrite E, Hs2, checks_cons, skips_cons.
      cbn [is_check].
      rewrite (map_ext _ _ (fun a => call_line_indent (suite w2) (suite w) a
                                       eq_refl)).
      replace (skiped (suite w) + 1 + skips l)
        with (skiped (suite w) + (1 + skips l)) by lia.
      replace (0 + checks l) with (checks l) by lia.
      subst w2. simpl.
      rewrite <- app_assoc. reflexivity.
Qed.


Lemma Titles_reach_the_body (names : list string) (body : Body C) :
  forall w w_in,
    0 <= indent (suite w) ->
    indent (suite w) + 2 * Z.of_nat (List.length names) <= GoInt.int_max ->
    suite w_in
    = set_indent (fun i => i + 2 * Z.of_nat (List.length names)) (suite w) ->
    stdout w_in = (stdout w ++ headings (indent (suite w)) names)%list ->
    client w_in = client w ->
    indent (suite (snd (body w_in))) = indent (suite w_in) ->
    Titles names body w
    = (fst (body w_in),
       on_suite (set_indent (fun _ => indent (suite w))) (snd (body w_in))).
Proof.
  induction names as [|name rest IH]; intros w w_in H0 Hmax Hs Ho Hc Hb.
  - assert (E : w_in = w).
    { destruct w_in as [s_in o_in c_in], w as [[t i p f k] o c].
      simpl in *. subst. rewrite app_nil_r.
      unfold set_indent. simpl. rewrite Z.add_0_r. reflexivity. }
    subst w_in. simpl. rewrite <- Hb.
    destruct (body w) as [r [[t i p f k] o c]]. reflexivity.
  - cbn [Titles]. rewrite Title_unfold by assumption.
    cbn [List.length] in Hmax, Hs.
    assert (Hin : indent (suite (Title_enter name w)) = indent (suite w) + 2).
    { simpl. apply GoInt_add_exact.
      unfold GoInt.is_int, GoInt.int_min, GoInt.int_max in *. lia. }
    rewrite (IH (Title_enter name w) w_in).
    + simpl. f_equal. unfold on_suite, set_indent. simpl.
      rewrite GoInt_add_exact
        by (unfold GoInt.is_int, GoInt.int_min, GoInt.int_max in *; lia).
      rewrite GoInt_sub_exact
        by (unfold GoInt.is_int, GoInt.int_min, GoInt.int_max in *; lia).
      replace (indent (suite w) + 2 - 2) with (indent (suite w)) by lia.
      reflexivity.
    + rewrite Hin. lia.
    + rewrite Hin. lia.
    + rewrite Hs. unfold set_indent. simpl.
      rewrite GoInt_add_exact
        by (unfold GoInt.is_int, GoInt.int_min, GoInt.int_max in *; lia).
      f_equal. lia.
    + rewrite Ho, Hin. simpl. unfold indented.
      rewrite <- app_assoc. reflexivity.
    + exact Hc.
    + exact Hb.
Qed.

(** X4.  Groups inside groups.  [Title n1 (Title n2 (... body))] writes the
    heading of each group (an empty line, the name in bold, an empty line),
    each two spaces deeper than the one around it, runs [body] two spaces
    deeper per group with counters, host record and caller state as they
    were, ends the way [body] ends, and leaves the indentation where it was
    before the call.  ([body] itself leaves the indentation as it finds it;
    there is room in [int] for the levels.) *)
Theorem nested_groups_run_the_body_deeper (names : list string) (body : Body C) w :
  0 <= indent (suite w) ->
  indent (suite w) + 2 * Z.of_nat (List.length names) <= GoInt.int_max ->
  let w_in :=
    {| suite := {| T := T (suite w);
                   indent := indent (suite w)
                             + 2 * Z.of_nat (List.length names);
                   passed := passed (suite w);
                   failed := failed (suite w);
                   skiped := skiped (suite w) |};
       stdout := (stdout w ++ headings (indent (suite w)) names)%list;
       client := client w |} in
  indent (suite (snd (body w_in))) = indent (suite w_in) ->
  Titles names body w
  = (fst (body w_in),
     {| suite := {| T := T (suite (snd (body w_in)));
                    indent := indent (suite w);
                    passed := passed (suite (snd (body w_in)));
                    failed := failed (suite (snd (body w_in)));
                    skiped := skiped (suite (snd (body w_in))) |};
        stdout := stdout (snd (body w_in));
        client := client (snd (body w_in)) |}).
Proof.
  intros H0 Hmax w_in Hb.
  apply (Titles_reach_the_body names body w w_in H0 Hmax);
    solve [reflexivity | exact Hb].
Qed.

(** X5.  A failing [Critical] ends its group.  In
    [Start name (Critical c test; rest)], when [test] returns an error or
    panics, [rest] never runs: the run ends in the exit [T.Fatal] starts
    whatever [rest] is, with the failure counted and reported once, one
    Fail line two spaces deep, the indentation restored, and the final
    block written after the Fail line. *)
Theorem failing_Critical_ends_the_group n name cname
    (test : SuiteTestHandler C) (rest : Body C) w r w1 arg :
  caller n test ->
  0 <= indent (suite w) ->
  indent (suite w) + 2 * Z.of_nat (S n) <= GoInt.int_max ->
  test (Title_enter name w) = (r, w1) ->
  r = Panicking arg \/ (exists err, r = Done (Some err) /\ arg = VError err) ->
  let s' :=
    {| T := (T (suite w1) ++ [TFatal arg])%list;
       indent := indent (suite w);
       passed := passed (suite w1);
       failed := GoInt.add (failed (suite w1)) 1;
       skiped := skiped (suite w1) |} in
  let fail_line :=
    repeat_string " " (Z.to_nat (indent (suite w) + 2))
    ++ "[" ++ HiRedString "Fail" ++ "] " ++ cname in
  Start name (Critical cname test ;; rest) w
  = (Goexit,
     {| suite := s';
        stdout := (stdout w1 ++ [fail_line] ++ summary s')%list;
        client := client w1 |}).
Proof.
  intros Hc H0 Hmax Htest Hr s' fail_line.
  assert (Hin : indent (suite (Title_enter name w)) = indent (suite w) + 2).
  { simpl. apply GoInt_add_exact.
    unfold GoInt.is_int, GoInt.int_min, GoInt.int_max in *. lia. }
  assert (H1 : indent (suite w1) = indent (suite w) + 2).
  { pose proof (caller_balanced n test Hc (Title_enter name w)) as Hb.
    rewrite Htest in Hb. simpl in Hb. rewrite <- Hin. apply Hb.
    - simpl in Hin. simpl. rewrite Hin. lia.
    - simpl in Hin. simpl. rewrite Hin. lia. }
  assert (E : (Critical cname test ;; rest) (Title_enter name w)
              = (Goexit, reported w1 cname (TFatal arg))).
  { unfold bind.
    rewrite (Critical_failing cname test _ r w1 arg Htest)
      by (try lia; exact Hr).
    reflexivity. }
  unfold Start, defer. rewrite Title_unfold by assumption.
  rewrite E. cbn [fst snd].
  rewrite finished_ok.
  - unfold on_stdout, on_suite, reported, set_indent, indented. simpl.
    rewrite H1.
    rewrite GoInt_sub_exact
      by (unfold GoInt.is_int, GoInt.int_min, GoInt.int_max in *; lia).
    replace (indent (suite w) + 2 - 2) with (indent (suite w)) by lia.
    rewrite <- app_assoc. reflexivity.
  - simpl. rewrite H1.
    rewrite GoInt_sub_exact
      by (unfold GoInt.is_int, GoInt.int_min, GoInt.int_max in *; lia).
    lia.
Qed.

Local Transparent Z.add Z.sub Z.mul Z.of_nat.

(** *** The counter [failed] and the host's record *)

Lemma GoInt_wrap_is_int (z : Z) : GoInt.is_int (GoInt.wrap z).
Proof.
  unfold GoInt.is_int, GoInt.wrap, GoInt.int_min, GoInt.int_max.
  pose proof (Z.mod_pos_bound (z - - 2 ^ 63) (2 ^ 64) ltac:(lia)). lia.
Qed.

Lemma GoInt_wrap_add_l (x y : Z) :
  GoInt.wrap (GoInt.wrap x + y) = GoInt.wrap (x + y).
Proof.
  unfold GoInt.wrap, GoInt.int_min. f_equal.
  replace ((x - - 2 ^ 63) mod 2 ^ 64 + - 2 ^ 63 + y - - 2 ^ 63)
    with ((x - - 2 ^ 63) mod 2 ^ 64 + y) by lia.
  rewrite Zplus_mod_idemp_l. f_equal. lia.
Qed.

Lemma tally_same w w' :
  T (suite w') = T (suite w) -> failed (suite w') = failed (suite w) ->
  tally w w'.
Proof.
  intros Ht Hf. exists []. split; [rewrite app_nil_r; exact Ht|].
  intros Hi. simpl. rewrite Z.add_0_r, GoInt_wrap_id by assumption. exact Hf.
Qed.

Lemma tally_trans w1 w2 w3 : tally w1 w2 -> tally w2 w3 -> tally w1 w3.
Proof.
  intros (r1 & Ht1 & Hf1) (r2 & Ht2 & Hf2). exists (r1 ++ r2)%list. split.
  - rewrite Ht2, Ht1, app_assoc. reflexivity.
  - intros Hi. specialize (Hf1 Hi).
    rewrite Hf2 by (rewrite Hf1; apply GoInt_wrap_is_int).
    rewrite Hf1, GoInt_wrap_add_l, length_app, Nat2Z.inj_add.
    f_equal. lia.
Qed.

Lemma tallied_le {A} (n n' : nat) (m : M C A) :
  (n <= n')%nat -> tallied n m -> tallied n' m.
Proof. intros Hle Hm w H0 Hmax. apply Hm; lia. Qed.

Lemma keeps_record_tallied {A} n (m : M C A) : keeps_record m -> tallied n m.
Proof. intros H w _ _. destruct (H w). apply tally_same; assumption. Qed.

Lemma keeps_record_bind {A B} (m : M C A) (k : A -> M C B) :
  keeps_record m -> (forall a, keeps_record (k a)) -> keeps_record (bind m k).
Proof.
  intros Hm Hk w. unfold bind. specialize (Hm w).
  destruct (m w) as [[a|v| |v] w1]; simpl in *; try assumption.
  destruct (Hk a w1) as [Ht Hf]. destruct Hm as [Ht1 Hf1].
  split; congruence.
Qed.

Lemma keeps_record_println content : keeps_record (println (C:=C) content).
Proof.
  intros w. destruct (Z.lt_ge_cases (indent (suite w)) 0) as [H|H].
  - rewrite println_negative by assumption. split; reflexivity.
  - rewrite println_ok by assumption. split; reflexivity.
Qed.

Lemma keeps_record_counter (f : Suite -> Suite) :
  (forall s, T (f s) = T s) -> (forall s, failed (f s) = failed s) ->
  keeps_record (update_s (C:=C) f).
Proof. intros Ht Hf w. simpl. split; [apply Ht|apply Hf]. Qed.

Lemma keeps_record_pass_report name :
  keeps_record (update_s (C:=C) (set_passed (fun n => GoInt.add n 1)) ;; ok name).
Proof.
  apply keeps_record_bind;
    [apply keeps_record_counter; reflexivity|intros _].
  apply keeps_record_println.
Qed.

Lemma keeps_record_finished : keeps_record (C:=C) finished.
Proof.
  unfold finished.
  apply keeps_record_bind; [apply keeps_record_println|intros _].
  do 3 (apply keeps_record_bind; [intros w; split; reflexivity|intros ?];
        apply keeps_record_bind; [apply keeps_record_println|intros _]).
  apply keeps_record_bind; [intros w; split; reflexivity|intros ?].
  apply keeps_record_println.
Qed.

Lemma tallied_bind {A B} n (m : M C A) (k : A -> M C B) :
  balanced n m -> tallied n m -> (forall a, tallied n (k a)) ->
  tallied n (bind m k).
Proof.
  intros Hb Hm Hk w H0 Hmax. unfold bind.
  specialize (Hb w H0 Hmax). specialize (Hm w H0 Hmax).
  destruct (m w) as [[a|v| |v] w1]; simpl in *; try assumption.
  eapply tally_trans; [exact Hm|]. apply Hk; rewrite Hb; assumption.
Qed.

Lemma tallied_defer {A} n (cleanup : M C unit) (body : M C A) :
  balanced n body -> tallied n body -> tallied n cleanup ->
  tallied n (defer cleanup body).
Proof.
  intros Hb Ht Hc w H0 Hmax. unfold defer.
  specialize (Hb w H0 Hmax). specialize (Ht w H0 Hmax).
  destruct (body w) as [r w1]. simpl in Hb, Ht.
  assert (Hc1 : tally w1 (snd (cleanup w1)))
    by (apply Hc; rewrite Hb; assumption).
  destruct (cleanup w1) as [[u|v| |v] w2]; simpl in *;
    eapply tally_trans; eassumption.
Qed.

Lemma tallied_defer_recover {A} n (handler : iface -> A -> M C A) zero body :
  balanced n body -> tallied n body ->
  (forall err a, tallied n (handler err a)) ->
  tallied n (defer_recover handler zero body).
Proof.
  intros Hb Ht Hh w H0 Hmax. unfold defer_recover.
  specialize (Hb w H0 Hmax). specialize (Ht w H0 Hmax).
  destruct (body w) as [[a|v| |v] w1]; simpl in Hb, Ht.
  - eapply tally_trans; [exact Ht|]. apply Hh; rewrite Hb; assumption.
  - eapply tally_trans; [exact Ht|]. apply Hh; rewrite Hb; assumption.
  - rewrite snd_during_exit.
    eapply tally_trans; [exact Ht|]. apply Hh; rewrite Hb; assumption.
  - rewrite snd_during_exit.
    eapply tally_trans; [exact Ht|]. apply Hh; rewrite Hb; assumption.
Qed.

(** Counting a failure and reporting it: one more in [failed], one more
    record. *)
Lemma tallied_fail_report n name (last : M C unit) ev :
  (forall w, T (suite (snd (last w))) = (T (suite w) ++ [ev])%list
             /\ failed (suite (snd (last w))) = failed (suite w)) ->
  tallied n (update_s (set_failed (fun k => GoInt.add k 1)) ;;
             fail name ;; last).
Proof.
  intros Hl w H0 _. unfold fail.
  unfold bind at 1. simpl. unfold bind at 1.
  rewrite println_ok by (simpl; assumption).
  match goal with |- tally _ (snd (last ?x)) => destruct (Hl x) as [Ht Hf] end.
  exists [ev]. split.
  - rewrite Ht. reflexivity.
  - intros _. rewrite Hf. reflexivity.
Qed.

Lemma T_Error_records_one arg w :
  T (suite (snd (T_Error (C:=C) arg w))) = (T (suite w) ++ [TError arg])%list
  /\ failed (suite (snd (T_Error arg w))) = failed (suite w).
Proof. split; reflexivity. Qed.

Lemma T_Fatal_records_one arg w :
  T (suite (snd (T_Fatal (C:=C) arg w))) = (T (suite w) ++ [TFatal arg])%list
  /\ failed (suite (snd (T_Fatal arg w))) = failed (suite w).
Proof. split; reflexivity. Qed.

Lemma tallied_ret {A} n (a : A) : tallied n (ret (C:=C) a).
Proof. intros w _ _. apply tally_same; reflexivity. Qed.

Lemma tallied_Check n name (test : SuiteTestHandler C) :
  balanced n test -> tallied n test -> tallied n (Check name test).
Proof.
  intros Hb Ht. unfold Check. apply tallied_defer_recover.
  - apply balanced_bind; [assumption|intros err].
    apply keeps_balanced, keeps_bind; [|intros _; apply keeps_pass_report].
    destruct err as [err|]; [|intros w; reflexivity].
    apply keeps_fail_report, keeps_T_Error.
  - apply tallied_bind; [assumption|assumption|intros err].
    apply tallied_bind.
    + apply keeps_balanced.
      destruct err as [err|]; [|intros w; reflexivity].
      apply keeps_fail_report, keeps_T_Error.
    + destruct err as [err|]; [|apply tallied_ret].
      apply (tallied_fail_report n name _ (TError (VError err))).
      apply T_Error_records_one.
    + intros _. apply keeps_record_tallied, keeps_record_pass_report.
  - intros [err|] _; [|apply tallied_ret].
    destruct err as [b|z|s|l|e|s|e];
      try (eapply tallied_fail_report; apply T_Error_records_one).
    destruct (critical e);
      eapply tallied_fail_report;
      [apply T_Fatal_records_one|apply T_Error_records_one].
Qed.

Lemma tallied_Critical n name (test : SuiteTestHandler C) :
  balanced n test -> tallied n test -> tallied n (Critical name test).
Proof.
  intros Hb Ht. unfold Critical. apply tallied_defer_recover.
  - apply balanced_bind; [assumption|intros err].
    apply keeps_balanced, keeps_bind; [|intros _; apply keeps_pass_report].
    destruct err as [err|]; [|intros w; reflexivity].
    apply keeps_fail_report, keeps_T_Fatal.
  - apply tallied_bind; [assumption|assumption|intros err].
    apply tallied_bind.
    + apply keeps_balanced.
      destruct err as [err|]; [|intros w; reflexivity].
      apply keeps_fail_report, keeps_T_Fatal.
    + destruct err as [err|]; [|apply tallied_ret].
      eapply tallied_fail_report. apply T_Fatal_records_one.
    + intros _. apply keeps_record_tallied, keeps_record_pass_report.
  - intros [err|] _; [|apply tallied_ret].
    eapply tallied_fail_report. apply T_Fatal_records_one.
Qed.

Lemma tallied_Title n name (test : Body C) :
  balanced n test -> tallied n test -> tallied (S n) (Title name test).
Proof.
  intros Hb Ht w H0 Hmax. rewrite Title_unfold by assumption. simpl.
  assert (Hin : indent (suite (Title_enter name w)) = indent (suite w) + 2).
  { simpl. apply GoInt_add_exact.
    unfold GoInt.is_int, GoInt.int_min, GoInt.int_max in *. lia. }
  eapply tally_trans; [|eapply tally_trans].
  - apply (tally_same w (Title_enter name w)); reflexivity.
  - apply (Ht (Title_enter name w)); rewrite Hin; lia.
  - apply tally_same; reflexivity.
Qed.

Lemma tallied_Try n (try : Body C) (catch : option (value -> M C unit)) :
  balanced n try -> tallied n try ->
  (forall f, catch = Some f -> forall err, tallied n (f err)) ->
  tallied n (Try try catch).
Proof.
  intros Hb Ht Hc. unfold Try. apply tallied_defer_recover.
  - apply balanced_bind; [assumption|intros _ w _ _; reflexivity].
  - apply tallied_bind; [assumption|assumption|intros _; apply tallied_ret].
  - intros [err|] _; [|apply tallied_ret].
    destruct catch as [f|].
    + intros w H0 Hmax. unfold bind.
      pose proof (Hc f eq_refl err w H0 Hmax) as Hf.
      destruct (f err w) as [[u|v| |v] w1]; exact Hf.
    + intros w _ _. apply tally_same; reflexivity.
Qed.

Lemma suite_code_caller {A} n (m : M C A) : suite_code n m -> caller n m.
Proof.
  induction 1;
    first [ apply caller_Skip | apply caller_Check; assumption
          | apply caller_Critical; assumption
          | apply caller_Title; assumption | apply caller_Start; assumption
          | apply caller_Assert | apply caller_Info
          | apply caller_Fail | apply caller_Fatal
          | apply caller_Try; assumption
          | apply caller_defer; assumption
          | apply caller_defer_recover; assumption
          | apply caller_own | apply caller_ret | apply caller_panic
          | apply caller_Goexit | apply caller_Println
          | apply caller_bind; assumption
          | apply caller_deeper; assumption ].
Qed.

Lemma suite_code_tallied {A} n (m : M C A) : suite_code n m -> tallied n m.
Proof.
  induction 1.
  - apply tallied_ret.
  - apply tallied_bind;
      [apply caller_balanced, suite_code_caller; assumption|assumption..].
  - intros w _ _. unfold own. destruct (f (client w)).
    apply tally_same; reflexivity.
  - intros w _ _. apply tally_same; reflexivity.
  - intros w _ _. apply tally_same; reflexivity.
  - intros w _ _. apply tally_same; reflexivity.
  - apply tallied_defer;
      [apply caller_balanced, suite_code_caller; assumption|assumption..].
  - apply tallied_defer_recover;
      [apply caller_balanced, suite_code_caller; assumption|assumption..].
  - unfold Start. apply tallied_defer.
    + apply balanced_Title, caller_balanced, suite_code_caller. assumption.
    + apply tallied_Title;
        [apply caller_balanced, suite_code_caller; assumption|assumption].
    + apply keeps_record_tallied, keeps_record_finished.
  - apply tallied_Title;
      [apply caller_balanced, suite_code_caller; assumption|assumption].
  - apply tallied_Check;
      [apply caller_balanced, suite_code_caller; assumption|assumption].
  - apply tallied_Critical;
      [apply caller_balanced, suite_code_caller; assumption|assumption].
  - apply keeps_record_tallied. unfold Skip.
    apply keeps_record_bind;
      [apply keeps_record_counter; reflexivity|intros _].
    apply keeps_record_println.
  - apply tallied_Try;
      [apply caller_balanced, suite_code_caller; assumption|assumption..].
  - intros w _ _. unfold Assert.
    destruct (iface_eq actual expect) as [[|]|]; apply tally_same; reflexivity.
  - apply keeps_record_tallied. unfold Info, info. apply keeps_record_println.
  - intros w _ _. apply tally_same; reflexivity.
  - intros w _ _. apply tally_same; reflexivity.
  - eapply tallied_le; [|eassumption]. lia.
Qed.

(** X7.  The counter [failed] counts the reports to the host.  For caller
    code that reaches the host only through the suite, started in a world
    [println] accepts: the host's record is the one before with the new
    records appended, and [failed] went up by exactly their number (in the
    arithmetic of [int]; literally so when that stays below the largest
    [int]). *)
Theorem failed_counts_the_reports {A} n (m : M C A) w :
  suite_code n m ->
  0 <= indent (suite w) ->
  indent (suite w) + 2 * Z.of_nat n <= GoInt.int_max ->
  GoInt.is_int (failed (suite w)) ->
  exists rec,
    T (suite (snd (m w))) = (T (suite w) ++ rec)%list
    /\ failed (suite (snd (m w)))
       = GoInt.wrap (failed (suite w) + Z.of_nat (List.length rec))
    /\ (failed (suite w) + Z.of_nat (List.length rec) <= GoInt.int_max ->
        failed (suite (snd (m w)))
        = failed (suite w) + Z.of_nat (List.length rec)).
Proof.
  intros Hc H0 Hmax Hi.
  destruct (suite_code_tallied n m Hc w H0 Hmax) as (rec & Ht & Hf).
  exists rec. split; [exact Ht|]. specialize (Hf Hi). split; [exact Hf|].
  intros Hle. rewrite Hf. apply GoInt_wrap_id.
  unfold GoInt.is_int, GoInt.int_min, GoInt.int_max in *. lia.
Qed.

End Runs.

(** ** The code on concrete runs *)

(** Derivations of [caller] for concrete bodies. *)
Ltac caller_step :=
  first
    [ apply caller_Skip | apply caller_Check | apply caller_Critical
    | apply caller_Title | apply caller_Start | apply caller_Assert
    | apply caller_Info | apply caller_Fail | apply caller_Fatal
    | apply caller_Try; [|intros ? ? ?]
    | apply caller_own | apply caller_ret | apply caller_panic
    | apply caller_bind; [|intros ?] ].

Ltac caller_code := repeat caller_step.

Lemma group_is_caller_code : caller 1 group.
Proof. unfold group, passing, probe. caller_code. Qed.

Lemma bare_is_caller_code : caller 0 bare.
Proof. unfold bare, passing, probe. caller_code. Qed.

(** C1 on a run.  [Check] of a test that returns an error, on a fresh suite:
    the check is counted as failed and recorded with [T.Error], and then,
    the [if] having no [return], it is counted as passed as well and a Done
    line follows the Fail line. *)
Theorem Check_returned_error_counts_as_passed_too :
  Check "x" (ret (Some bad)) fresh
  = (Done tt,
     {| suite := {| T := [TError (VError bad)]; indent := 0;
                    passed := 1; failed := 1; skiped := 0 |};
        stdout := ["[" ++ sgr "91" "Fail" ++ "] x";
                   "[" ++ sgr "92" "Done" ++ "] x"];
        client := 0%nat |}).
Proof.
  rewrite (Check_returned_error "x" (ret (Some bad)) fresh fresh bad eq_refl)
    by (simpl; lia).
  reflexivity.
Qed.

(** C2 on a run.  [Check] of a test that panics with a plain string, on a
    fresh suite: the [default] case of the type switch hands the value to
    [T.Error], not to [T.Fatal]; [Check] returns and the next check runs. *)
Theorem Check_plain_panic_recorded_with_T_Error :
  Check "x" (panic (VString "boom")) fresh
  = (Done tt,
     {| suite := {| T := [TError (VString "boom")]; indent := 0;
                    passed := 0; failed := 1; skiped := 0 |};
        stdout := ["[" ++ sgr "91" "Fail" ++ "] x"];
        client := 0%nat |})
  /\ (Check "x" (panic (VString "boom")) ;; Check "y" passing) fresh
     = (Done tt,
        {| suite := {| T := [TError (VString "boom")]; indent := 0;
                       passed := 1; failed := 1; skiped := 0 |};
           stdout := ["[" ++ sgr "91" "Fail" ++ "] x";
                      "[" ++ sgr "92" "Done" ++ "] y"];
           client := 1%nat |}).
Proof.
  assert (E : Check "x" (panic (VString "boom")) fresh
              = (Done tt,
                 {| suite := {| T := [TError (VString "boom")]; indent := 0;
                                passed := 0; failed := 1; skiped := 0 |};
                    stdout := ["[" ++ sgr "91" "Fail" ++ "] x"];
                    client := 0%nat |})).
  { rewrite (Check_other_panic "x" (panic (VString "boom")) fresh fresh
               (VString "boom") eq_refl);
      [reflexivity|discriminate|simpl; lia]. }
  split; [exact E|].
  unfold bind at 1. rewrite E. reflexivity.
Qed.

(** C3 fails as stated: what [Assert(5, 6)] raises is the message, a string,
    and not the Fatal signal carrying the message; and two equal slices do
    not make [Assert] return, since [==] itself panics on them. *)
Lemma Assert_raises_a_string_and_cannot_compare_slices :
  fst (Assert (Some (VInt 5)) (Some (VInt 6)) fresh)
  = Panicking (VString ("Expect " ++ dquote ++ "6" ++ dquote
                        ++ ", got " ++ dquote ++ "5" ++ dquote))
  /\ fst (Assert (Some (VInt 5)) (Some (VInt 6)) fresh)
     <> Panicking
          (VSuiteError
             {| critical := true;
                msg := "Expect " ++ dquote ++ "6" ++ dquote
                       ++ ", got " ++ dquote ++ "5" ++ dquote |})
  /\ Assert (Some (VInts [1])) (Some (VInts [1])) fresh
     = (Panicking
          (VRuntimeError "runtime error: comparing uncomparable type []int"),
        fresh).
Proof. split; [reflexivity|split; [discriminate|reflexivity]]. Qed.

Lemma Assert_panics_with_plain_message_witness :
  Assert (Some (VString "a")) (Some (VString "a")) fresh = (Done tt, fresh)
  /\ Assert None (Some (VError bad)) fresh
     = (Panicking (VString ("Expect " ++ dquote ++ "bad" ++ dquote
                            ++ ", got " ++ dquote ++ "<nil>" ++ dquote)),
        fresh).
Proof.
  split.
  - refine (proj1 (Assert_panics_with_plain_message
                     (Some (VString "a")) (Some (VString "a")) true fresh _)).
    reflexivity.
  - refine (proj1 (Assert_panics_with_plain_message
                     None (Some (VError bad)) false fresh _)).
    reflexivity.
Defined.

Lemma Critical_no_recoverable_path_witness :
  Critical "x" (probe ;; Fail "no") fresh
  = (Goexit,
     {| suite := {| T := [TFatal (VSuiteError {| critical := false;
                                                  msg := "no" |})];
                    indent := 0; passed := 0; failed := 1; skiped := 0 |};
        stdout := ["[" ++ sgr "91" "Fail" ++ "] x"];
        client := 1%nat |})
  /\ Critical "x" (ret (Some bad)) fresh
     = (Goexit,
        {| suite := {| T := [TFatal (VError bad)];
                       indent := 0; passed := 0; failed := 1; skiped := 0 |};
           stdout := ["[" ++ sgr "91" "Fail" ++ "] x"];
           client := 0%nat |})
  /\ Critical "x" passing fresh
     = (Done tt,
        {| suite := {| T := []; indent := 0;
                       passed := 1; failed := 0; skiped := 0 |};
           stdout := ["[" ++ sgr "92" "Done" ++ "] x"];
           client := 1%nat |}).
Proof.
  split; [|split].
  - refine (proj1 (Critical_no_recoverable_path "x" (probe ;; Fail "no") fresh
                     (Panicking (VSuiteError {| critical := false;
                                                msg := "no" |}))
                     (on_client S fresh) _ _));
      [reflexivity|simpl; lia].
  - refine (proj1 (Critical_no_recoverable_path "x" (ret (Some bad)) fresh
                     (Done (Some bad)) fresh _ _));
      [reflexivity|simpl; lia].
  - refine (proj1 (Critical_no_recoverable_path "x" passing fresh
                     (Done None) (on_client S fresh) _ _));
      [reflexivity|simpl; lia].
Defined.



Lemma Skip_never_runs_test_witness :
  Skip "x" passing fresh
  = (Done tt,
     {| suite := {| T := []; indent := 0;
                    passed := 0; failed := 0; skiped := 1 |};
        stdout := ["[" ++ sgr "94" "Skip" ++ "] " ++ sgr "90" "x"];
        client := 0%nat |}).
Proof.
  refine (proj1 (Skip_never_runs_test "x" passing fresh _)).
  simpl; lia.
Defined.



Lemma Title_Start_restore_indent_witness :
  (fst (Title "run" group fresh) = Goexit
   /\ indent (suite (snd (Title "run" group fresh))) = 0)
  /\ (fst (Start "run" group fresh) = Goexit
      /\ indent (suite (snd (Start "run" group fresh))) = 0).
Proof.
  refine (Title_Start_restore_indent 1 "run" group fresh
            group_is_caller_code _ _).
  - simpl; lia.
  - vm_compute. discriminate.
Defined.

Lemma Start_prints_summary_once_witness :
  Start "run" group fresh
  = (Goexit,
     {| suite := {| T := [TError (VString "no");
                          TFatal (VSuiteError {| critical := true;
                                                 msg := "boom" |})];
                    indent := 0; passed := 1; failed := 2; skiped := 1 |};
        stdout := [ ""; sgr "1" "run"; "";
                    "  [" ++ sgr "92" "Done" ++ "] a";
                    "  [" ++ sgr "94" "Skip" ++ "] " ++ sgr "90" "b";
                    "  [" ++ sgr "91" "Fail" ++ "] c";
                    "  "; "  " ++ sgr "1" "inner"; "  ";
                    "    [" ++ sgr "91" "Fail" ++ "] d";
                    nl ++ "=== FINISHED" ++ nl;
                    sgr "92" "Passed" ++ ": 1";
                    sgr "91" "Failed" ++ ": 2";
                    sgr "94" "Skiped" ++ ": 1";
                    nl ++ "Total: 4" ++ nl ];
        client := 3%nat |}).
Proof.
  refine (proj1 (Start_prints_summary_once 1 "run" group fresh Goexit
                   (snd (Title "run" group fresh))
                   group_is_caller_code _ _ _)).
  - simpl; lia.
  - vm_compute. discriminate.
  - reflexivity.
Defined.

Lemma Title_Start_do_not_recover_witness :
  Title "run" bare fresh
  = (Panicking (VSuiteError {| critical := false; msg := "stray" |}),
     {| suite := {| T := []; indent := 0;
                    passed := 1; failed := 0; skiped := 0 |};
        stdout := [ ""; sgr "1" "run"; "";
                    "  [" ++ sgr "92" "Done" ++ "] a" ];
        client := 1%nat |})
  /\ Start "run" bare fresh
     = (Panicking (VSuiteError {| critical := false; msg := "stray" |}),
        {| suite := {| T := []; indent := 0;
                       passed := 1; failed := 0; skiped := 0 |};
           stdout := [ ""; sgr "1" "run"; "";
                       "  [" ++ sgr "92" "Done" ++ "] a";
                       nl ++ "=== FINISHED" ++ nl;
                       sgr "92" "Passed" ++ ": 1";
                       sgr "91" "Failed" ++ ": 0";
                       sgr "94" "Skiped" ++ ": 0";
                       nl ++ "Total: 1" ++ nl ];
           client := 1%nat |}).
Proof.
  refine (Title_Start_do_not_recover 0 "run" bare fresh
            {| critical := false; msg := "stray" |}
            (snd (bare (Title_enter "run" fresh)))
            bare_is_caller_code _ _ _).
  - simpl; lia.
  - vm_compute. discriminate.
  - reflexivity.
Defined.

(** ** The further properties on concrete runs *)

Ltac suite_step :=
  first
    [ apply suite_Skip | apply suite_Check | apply suite_Critical
    | apply suite_Title | apply suite_Start | apply suite_Assert
    | apply suite_Info | apply suite_Fail | apply suite_Fatal
    | apply suite_Try; [|intros ? ? ?]
    | apply suite_own | apply suite_ret | apply suite_panic
    | apply suite_bind; [|intros ?] ].

Lemma group_is_suite_code : suite_code 1 group.
Proof. unfold group, passing, probe. repeat suite_step. Qed.

Lemma passing_is_quiet : quiet_pass passing.
Proof. intros w. exists (S (client w)). reflexivity. Qed.

Lemma plan_passes_quietly : Forall passes_quietly plan.
Proof.
  repeat constructor; exact passing_is_quiet.
Qed.

Lemma Check_nil_return_passes_witness :
  Check "x" passing fresh
  = (Done tt,
     {| suite := {| T := []; indent := 0;
                    passed := 1; failed := 0; skiped := 0 |};
        stdout := ["[" ++ sgr "92" "Done" ++ "] x"];
        client := 1%nat |}).
Proof.
  refine (proj1 (Check_nil_return_passes "x" passing fresh
                   (on_client S fresh) _ _));
    [reflexivity|simpl; lia].
Defined.

Lemma Check_Fatal_signal_ends_the_run_witness :
  (Check "x" (probe ;; Fatal "boom") ;; Check "y" passing) fresh
  = (Goexit,
     {| suite := {| T := [TFatal (VString "boom")]; indent := 0;
                    passed := 0; failed := 1; skiped := 0 |};
        stdout := ["[" ++ sgr "91" "Fail" ++ "] x"];
        client := 1%nat |}).
Proof.
  refine (proj2 (Check_Fatal_signal_ends_the_run "x" (probe ;; Fatal "boom")
                   fresh (on_client S fresh) "boom" _ _)
            unit (Check "y" passing));
    [reflexivity|simpl; lia].
Defined.

Lemma passing_checks_and_skips_add_up_witness :
  exists c,
    run_calls plan fresh
    = (Done tt,
       {| suite := {| T := []; indent := 0;
                      passed := 2; failed := 0; skiped := 1 |};
          stdout := [ "[" ++ sgr "92" "Done" ++ "] a";
                      "[" ++ sgr "94" "Skip" ++ "] " ++ sgr "90" "b";
                      "[" ++ sgr "92" "Done" ++ "] c" ];
          client := c |}).
Proof.
  refine (passing_checks_and_skips_add_up plan fresh
            plan_passes_quietly _ _ _ _ _);
    vm_compute; discriminate.
Defined.

Lemma nested_groups_run_the_body_deeper_witness :
  Titles ["outer"; "inner"] (Check "a" passing) fresh
  = (Done tt,
     {| suite := {| T := []; indent := 0;
                    passed := 1; failed := 0; skiped := 0 |};
        stdout := [ ""; sgr "1" "outer"; "";
                    "  "; "  " ++ sgr "1" "inner"; "  ";
                    "    [" ++ sgr "92" "Done" ++ "] a" ];
        client := 1%nat |}).
Proof.
  refine (nested_groups_run_the_body_deeper ["outer"; "inner"]
            (Check "a" passing) fresh _ _ _).
  - simpl; lia.
  - vm_compute. discriminate.
  - reflexivity.
Defined.

Lemma failing_Critical_ends_the_group_witness :
  Start "run" (Critical "c" (probe ;; Fail "no") ;; Check "after" passing) fresh
  = (Goexit,
     {| suite := {| T := [TFatal (VSuiteError {| critical := false;
                                                  msg := "no" |})];
                    indent := 0; passed := 0; failed := 1; skiped := 0 |};
        stdout := [ ""; sgr "1" "run"; "";
                    "  [" ++ sgr "91" "Fail" ++ "] c";
                    nl ++ "=== FINISHED" ++ nl;
                    sgr "92" "Passed" ++ ": 0";
                    sgr "91" "Failed" ++ ": 1";
                    sgr "94" "Skiped" ++ ": 0";
                    nl ++ "Total: 1" ++ nl ];
        client := 1%nat |}).
Proof.
  refine (failing_Critical_ends_the_group 0 "run" "c" (probe ;; Fail "no")
            (Check "after" passing) fresh
            (Panicking (VSuiteError {| critical := false; msg := "no" |}))
            (on_client S (Title_enter "run" fresh))
            (VSuiteError {| critical := false; msg := "no" |})
            _ _ _ _ _).
  - unfold probe. caller_code.
  - simpl; lia.
  - vm_compute. discriminate.
  - reflexivity.
  - left. reflexivity.
Defined.


Lemma failed_counts_the_reports_witness :
  exists rec,
    T (suite (snd (Start "run" group fresh))) = ([] ++ rec)%list
    /\ failed (suite (snd (Start "run" group fresh)))
       = GoInt.wrap (0 + Z.of_nat (List.length rec))
    /\ (0 + Z.of_nat (List.length rec) <= GoInt.int_max ->
        failed (suite (snd (Start "run" group fresh)))
        = 0 + Z.of_nat (List.length rec)).
Proof.
  refine (failed_counts_the_reports 2 (Start "run" group) fresh _ _ _ _).
  - apply suite_Start. exact group_is_suite_code.
  - simpl; lia.
  - vm_compute. discriminate.
  - vm_compute. split; discriminate.
Defined.


Lemma Assert_under_Critical_witness :
  Critical "x" (Assert (Some (VInt 5)) (Some (VInt 6)) ;; passing) fresh
  = (Goexit,
     {| suite := {| T := [TFatal (VString ("Expect " ++ dquote ++ "6" ++ dquote
                                            ++ ", got " ++ dquote ++ "5"
                                            ++ dquote))];
                    indent := 0; passed := 0; failed := 1; skiped := 0 |};
        stdout := ["[" ++ sgr "91" "Fail" ++ "] x"];
        client := 0%nat |}).
Proof.
  refine (Assert_under_Critical "x" (Some (VInt 5)) (Some (VInt 6)) false
            passing fresh _ _);
    [reflexivity|simpl; lia].
Defined.

Lemma Assert_under_Check_witness :
  Check "x" (Assert (Some (VInt 5)) (Some (VInt 6)) ;; passing) fresh
  = (Done tt,
     {| suite := {| T := [TError (VString ("Expect " ++ dquote ++ "6" ++ dquote
                                            ++ ", got " ++ dquote ++ "5"
                                            ++ dquote))];
                    indent := 0; passed := 0; failed := 1; skiped := 0 |};
        stdout := ["[" ++ sgr "91" "Fail" ++ "] x"];
        client := 0%nat |}).
Proof.
  refine (Assert_under_Check "x" (Some (VInt 5)) (Some (VInt 6)) false
            passing fresh _ _);
    [reflexivity|simpl; lia].
Defined.
